(** * python-bess: the ban layer of [BessBoard.py] over python-chess

    [BessBoard.py] defines [BessMove] (a chess move that also announces a
    banned piece type), [BessBoard] (a subclass of [chess.Board] that keeps
    the ban in force in [current_ban]) and two generator wrappers.

    The development has four parts:
    - [Py]: the few pieces of Python semantics the file relies on
      (exceptions, truthiness, indexing, [list.index]);
    - the constants of python-chess that the file reads;
    - [BessMove] with [uci], [__bool__], [move], [from_uci], [null];
    - [BessBoard] over an abstract [chess.Board] (section [Board]), with the
      inherited methods that reach the overridden generator. *)

From Stdlib Require Import ZArith List String Ascii Bool Lia Permutation.
Import ListNotations.

Local Open Scope Z_scope.

(* ================================================================== *)
(** ** Python semantics used by the source *)

Module Py.

(** The exception classes that can leave the modelled code. *)
Inductive exn : Type :=
| ValueError
| IndexError
| TypeError
| AttributeError
| UnboundLocalError
| InvalidMoveError.

(** A computation either returns a value or raises. *)
Inductive result (A : Type) : Type :=
| Ok (a : A)
| Raise (e : exn).

Arguments Ok {A} a.
Arguments Raise {A} e.

Definition bind {A B : Type} (r : result A) (k : A -> result B) : result B :=
  match r with
  | Ok a => k a
  | Raise e => Raise e
  end.

(** [chess.InvalidMoveError] derives from [ValueError]. *)
Definition isinstance_ValueError (e : exn) : bool :=
  match e with
  | ValueError | InvalidMoveError => true
  | _ => false
  end.

(** [try: body except ValueError: handler]. *)
Definition try_except_ValueError {A : Type} (body handler : result A) : result A :=
  match body with
  | Ok a => Ok a
  | Raise e => if isinstance_ValueError e then handler else Raise e
  end.

(** Truthiness of an [int] and of an [Optional[int]]. *)
Definition truthy (z : Z) : bool := negb (z =? 0).

Definition truthy_opt (o : option Z) : bool :=
  match o with
  | Some z => truthy z
  | None => false
  end.

(** [len(s)]; a [str] is modelled as a [string] with one [ascii] per
    character. *)
Definition len (s : string) : Z := Z.of_nat (String.length s).

(** [s[i]] for a literal index [i >= 0]: a one-character string, or
    [IndexError] past the end. *)
Definition str_item (s : string) (i : nat) : result string :=
  match String.get i s with
  | Some c => Ok (String c EmptyString)
  | None => Raise IndexError
  end.

(** [c == s[i]] where a length test has put [i] in range. *)
Definition str_item_is (s : string) (i : nat) (c : ascii) : bool :=
  match String.get i s with
  | Some x => Ascii.eqb c x
  | None => false
  end.

(** [s[i:j]] for literal [0 <= i <= j]; slices clamp, they never raise. *)
Definition str_slice (s : string) (i j : nat) : string :=
  substring i (j - i) s.

(** [l[i]], with Python's negative indices. *)
Definition list_item {A : Type} (l : list A) (i : Z) : result A :=
  let n := Z.of_nat (List.length l) in
  let j := if i <? 0 then i + n else i in
  if (0 <=? j) && (j <? n)
  then match nth_error l (Z.to_nat j) with
       | Some a => Ok a
       | None => Raise IndexError
       end
  else Raise IndexError.

(** [l.index(x)]: the first position holding a value equal to [x], else
    [ValueError]. *)
Fixpoint list_index_from {A : Type} (eqb : A -> A -> bool) (x : A)
  (l : list A) (pos : Z) : result Z :=
  match l with
  | [] => Raise ValueError
  | y :: l' => if eqb y x then Ok pos else list_index_from eqb x l' (pos + 1)
  end.

Definition list_index {A : Type} (eqb : A -> A -> bool) (x : A) (l : list A)
  : result Z :=
  list_index_from eqb x l 0.

End Py.

Import Py.

Notation "x <- e ;; k" := (bind e (fun x => k))
  (at level 61, e at next level, right associativity).

(* ================================================================== *)
(** ** Constants of python-chess read by the source

    [chess.Square] and [chess.PieceType] are aliases of [int]; a bitboard is
    an [int] whose bit [s] stands for square [s]. *)

Definition Square := Z.
Definition PieceType := Z.
Definition Bitboard := Z.

Definition PAWN : PieceType := 1.
Definition KNIGHT : PieceType := 2.
Definition BISHOP : PieceType := 3.
Definition ROOK : PieceType := 4.
Definition QUEEN : PieceType := 5.
Definition KING : PieceType := 6.

(** [chess.PIECE_TYPES = range(1, 7)]. *)
Definition PIECE_TYPES : list PieceType := [PAWN; KNIGHT; BISHOP; ROOK; QUEEN; KING].

(** [chess.PIECE_SYMBOLS = [None, "p", "n", "b", "r", "q", "k"]]. *)
Definition PIECE_SYMBOLS : list (option string) :=
  [None; Some "p"; Some "n"; Some "b"; Some "r"; Some "q"; Some "k"]%string.

Definition FILE_NAMES : list string := ["a"; "b"; "c"; "d"; "e"; "f"; "g"; "h"]%string.
Definition RANK_NAMES : list string := ["1"; "2"; "3"; "4"; "5"; "6"; "7"; "8"]%string.

(** [chess.SQUARE_NAMES = [f + r for r in RANK_NAMES for f in FILE_NAMES]]. *)
Definition SQUARE_NAMES : list string :=
  flat_map (fun r => map (fun f => (f ++ r)%string) FILE_NAMES) RANK_NAMES.

(** [chess.BB_ALL = 0xffff_ffff_ffff_ffff]. *)
Definition BB_ALL : Bitboard := 18446744073709551615.

(** [chess.piece_symbol(piece_type)] reads [PIECE_SYMBOLS[piece_type]]; the
    callers concatenate the result, which needs a [str]. *)
Definition piece_symbol (piece_type : option PieceType) : result string :=
  match piece_type with
  | None => Raise TypeError
  | Some pt =>
      sym <- list_item PIECE_SYMBOLS pt ;;
      match sym with
      | Some s => Ok s
      | None => Raise TypeError
      end
  end.

(** [chess.Move(from_square, to_square, promotion=None, drop=None)]. *)
Record Move : Type := mkMove {
  move_from_square : Square;
  move_to_square : Square;
  move_promotion : option PieceType;
  move_drop : option PieceType
}.

(* ================================================================== *)
(** ** [BessMove] *)

(** The dataclass of lines 10-20.  [ban_piece] is declared as a piece type,
    but [null()] stores [None] in it, so the field holds an optional one. *)
Record BessMove : Type := mkBessMove {
  from_square : Square;
  to_square : Square;
  ban_piece : option PieceType;
  promotion : option PieceType;
  drop : option PieceType
}.

(** [BessMove.__bool__] (lines 38-39):
    [bool(from_square or to_square or promotion or ban_piece)]. *)
Definition BessMove_bool (self : BessMove) : bool :=
  truthy (from_square self) || truthy (to_square self)
  || truthy_opt (promotion self) || truthy_opt (ban_piece self).

(** [BessMove.move] (lines 47-48). *)
Definition move (self : BessMove) : Move :=
  mkMove (from_square self) (to_square self) (promotion self) None.

(** [BessMove.null] (lines 82-84): [cls(0, 0, None)]. *)
Definition null : BessMove := mkBessMove 0 0 None None None.

(** What the expression [x.move] denotes for a [BessMove] [x]: [move] is a
    method of the class, not a field, so the attribute is the bound method.
    Calling it gives the [chess.Move]; reading a field from the method
    object itself raises [AttributeError]. *)
Inductive attribute : Type :=
| BoundMethod_move (self : BessMove)
| MoveObject (m : Move).

Definition getattr_move (self : BessMove) : attribute := BoundMethod_move self.

Definition call (o : attribute) : result Move :=
  match o with
  | BoundMethod_move self => Ok (move self)
  | MoveObject _ => Raise TypeError
  end.

Definition attr_promotion (o : attribute) : result (option PieceType) :=
  match o with
  | BoundMethod_move _ => Raise AttributeError
  | MoveObject m => Ok (move_promotion m)
  end.

Definition attr_from_square (o : attribute) : result Square :=
  match o with
  | BoundMethod_move _ => Raise AttributeError
  | MoveObject m => Ok (move_from_square m)
  end.

Definition attr_to_square (o : attribute) : result Square :=
  match o with
  | BoundMethod_move _ => Raise AttributeError
  | MoveObject m => Ok (move_to_square m)
  end.

(** [BessMove.uci] (lines 22-36).  Every branch reads [self.move.<field>]
    without calling [move]. *)
Definition uci (self : BessMove) : result string :=
  p <- attr_promotion (getattr_move self) ;;
  if truthy_opt p then
    f <- attr_from_square (getattr_move self) ;;
    fs <- list_item SQUARE_NAMES f ;;
    t <- attr_to_square (getattr_move self) ;;
    ts <- list_item SQUARE_NAMES t ;;
    p' <- attr_promotion (getattr_move self) ;;
    ps <- piece_symbol p' ;;
    bs <- piece_symbol (ban_piece self) ;;
    Ok (fs ++ ts ++ ps ++ ":" ++ bs)%string
  else if BessMove_bool self then
    f <- attr_from_square (getattr_move self) ;;
    fs <- list_item SQUARE_NAMES f ;;
    t <- attr_to_square (getattr_move self) ;;
    ts <- list_item SQUARE_NAMES t ;;
    bs <- piece_symbol (ban_piece self) ;;
    Ok (fs ++ ts ++ ":" ++ bs)%string
  else
    Ok "0000"%string.

Definition opt_string_eqb (a b : option string) : bool :=
  match a, b with
  | Some x, Some y => String.eqb x y
  | None, None => true
  | _, _ => false
  end.

(** [chess.SQUARE_NAMES.index(name)] and [chess.PIECE_SYMBOLS.index(c)]. *)
Definition square_index (name : string) : result Square :=
  list_index String.eqb name SQUARE_NAMES.

Definition symbol_index (c : string) : result PieceType :=
  list_index opt_string_eqb (Some c) PIECE_SYMBOLS.

(** [BessMove.from_uci] (lines 50-80).  The six-character branch tests the
    colon at index 5 and reads the ban letter at index 6; the
    seven-character branch tests index 6 and reads index 7. *)
Definition from_uci (uci : string) : result BessMove :=
  if String.eqb uci "0000" then
    Ok null
  else if (len uci =? 6) && str_item_is uci 5 ":" then
    parsed <- try_except_ValueError
      (from_sq <- square_index (str_slice uci 0 2) ;;
       to_sq <- square_index (str_slice uci 2 4) ;;
       c <- str_item uci 6 ;;
       ban <- symbol_index c ;;
       Ok (from_sq, to_sq, ban))
      (Raise InvalidMoveError) ;;
    let '(from_sq, to_sq, ban) := parsed in
    Ok (mkBessMove from_sq to_sq (Some ban) None None)
  else if (len uci =? 7) && str_item_is uci 6 ":" then
    parsed <- try_except_ValueError
      (from_sq <- square_index (str_slice uci 0 2) ;;
       to_sq <- square_index (str_slice uci 2 4) ;;
       c <- str_item uci 5 ;;
       promo <- symbol_index c ;;
       c' <- str_item uci 7 ;;
       ban <- symbol_index c' ;;
       Ok (from_sq, to_sq, promo, ban))
      (Raise InvalidMoveError) ;;
    let '(from_sq, to_sq, promo, ban) := parsed in
    if from_sq =? to_sq then
      Raise InvalidMoveError
    else
      Ok (mkBessMove from_sq to_sq (Some ban) (Some promo) None)
  else
    Raise InvalidMoveError.

(* ================================================================== *)
(** ** Bitboard helpers of python-chess *)

(** [chess.BB_SQUARES[square]] is [1 << square] (squares 0..63). *)
Definition BB_SQUARES (square : Square) : Bitboard := Z.shiftl 1 square.

(** [chess.msb(bb)] is [bb.bit_length() - 1]. *)
Definition msb (bb : Bitboard) : Square := Z.log2 bb.

(** [chess.scan_reversed(bb)]: the squares of a 64-bit bitboard, highest
    first. *)
Definition scan_reversed (bb : Bitboard) : list Square :=
  filter (Z.testbit bb) (rev (map Z.of_nat (seq 0 64))).

(** Truthiness of a bitboard. *)
Definition nonzero (bb : Bitboard) : bool := negb (bb =? 0).

(* ================================================================== *)
(** ** The collaborator: [chess.Board]

    python-chess is not part of the repository.  What [BessBoard] reads from
    its base class is collected in one interface: the piece bitboards, the
    base implementations reached through [super()], and the operations that
    the inherited move generation is built from.  [Board] is the state that
    [chess.Board] itself owns. *)

Record ChessBoard (Board : Type) : Type := mkChessBoard {
  (** attributes *)
  turn : Board -> bool;
  occupied_co : Board -> bool -> Bitboard;
  pawns : Board -> Bitboard;
  knights : Board -> Bitboard;
  bishops : Board -> Bitboard;
  rooks : Board -> Bitboard;
  queens : Board -> Bitboard;
  kings : Board -> Bitboard;
  ep_square : Board -> option Square;
  (** [chess.Board.generate_pseudo_legal_moves(from_mask, to_mask)], the
      base implementation *)
  super_generate_pseudo_legal_moves : Board -> Bitboard -> Bitboard -> list Move;
  (** [chess.Board.generate_pseudo_legal_ep(from_mask, to_mask)] *)
  generate_pseudo_legal_ep : Board -> Bitboard -> Bitboard -> list Move;
  (** [chess.Board.attackers_mask(color, square)] *)
  attackers_mask : Board -> bool -> Square -> Bitboard;
  (** [chess.Board._slider_blockers(king)] *)
  slider_blockers : Board -> Square -> Bitboard;
  (** [chess.Board._is_safe(king, blockers, move)]; of the move it reads
      [from_square] and [to_square] only *)
  is_safe : Board -> Square -> Bitboard -> Square -> Square -> bool;
  (** the tables [chess.BB_KING_ATTACKS], [chess.ray], [chess.between] *)
  BB_KING_ATTACKS : Square -> Bitboard;
  ray : Square -> Square -> Bitboard;
  between : Square -> Square -> Bitboard;
  (** [chess.Board.gives_check(move)], [reset()], [clear()] *)
  super_gives_check : Board -> Move -> bool;
  super_reset : Board -> Board;
  super_clear : Board -> Board;
  (** [chess.Board.push(move)]: it reads the four fields of the move and its
      truthiness *)
  super_push : Board -> Move -> bool -> Board
}.

Arguments turn {Board} _ _.
Arguments occupied_co {Board} _ _ _.
Arguments pawns {Board} _ _.
Arguments knights {Board} _ _.
Arguments bishops {Board} _ _.
Arguments rooks {Board} _ _.
Arguments queens {Board} _ _.
Arguments kings {Board} _ _.
Arguments ep_square {Board} _ _.
Arguments super_generate_pseudo_legal_moves {Board} _ _ _ _.
Arguments generate_pseudo_legal_ep {Board} _ _ _ _.
Arguments attackers_mask {Board} _ _ _ _.
Arguments slider_blockers {Board} _ _ _.
Arguments is_safe {Board} _ _ _ _ _ _.
Arguments BB_KING_ATTACKS {Board} _ _.
Arguments ray {Board} _ _ _.
Arguments between {Board} _ _ _.
Arguments super_gives_check {Board} _ _ _.
Arguments super_reset {Board} _ _.
Arguments super_clear {Board} _ _.
Arguments super_push {Board} _ _ _ _.

(** A [BessBoard] instance: the state of the base class and the attribute
    the subclass adds (line 90). *)
Record BessBoard (Board : Type) : Type := mkBessBoard {
  base : Board;
  current_ban : option PieceType
}.

Arguments mkBessBoard {Board} _ _.
Arguments base {Board} _.
Arguments current_ban {Board} _.

(** The generators yield [BessMove]s from the overridden method and plain
    [chess.Move]s from the base class. *)
Inductive GenMove : Type :=
| Bess (m : BessMove)
| Plain (m : Move).

(** The [chess.Move] fields of a yielded object, as duck typing reads them. *)
Definition as_move (g : GenMove) : Move :=
  match g with
  | Bess m => mkMove (from_square m) (to_square m) (promotion m) (drop m)
  | Plain m => m
  end.

Definition origin (g : GenMove) : Square := move_from_square (as_move g).

Definition target (g : GenMove) : Square := move_to_square (as_move g).

(** [current_ban == piece] for an optional ban. *)
Definition ban_is (ban : option PieceType) (piece : PieceType) : bool :=
  match ban with
  | Some t => t =? piece
  | None => false
  end.

Definition ban_is_None (ban : option PieceType) : bool :=
  match ban with
  | Some _ => false
  | None => true
  end.

(** The inner loop of lines 124-126 for one chess move. *)
Definition announce (m : Move) : list BessMove :=
  map (fun piece => mkBessMove (move_from_square m) (move_to_square m)
                      (Some piece) (move_promotion m) None)
      PIECE_TYPES.

(** A field that holds [None] or one of the six piece types. *)
Definition optional_piece_type (o : option PieceType) : Prop :=
  match o with
  | None => True
  | Some p => In p PIECE_TYPES
  end.

Section Board.

Context {Board : Type} (chess : ChessBoard Board).

(* ------------------------------------------------------------------ *)
(** *** Methods defined by [BessBoard] *)

(** [BessBoard.reset] (lines 92-94). *)
Definition reset (self : BessBoard Board) : BessBoard Board :=
  let self := mkBessBoard (base self) None in
  mkBessBoard (super_reset chess (base self)) (current_ban self).

(** [BessBoard.clear] (lines 96-98). *)
Definition clear (self : BessBoard Board) : BessBoard Board :=
  let self := mkBessBoard (base self) None in
  mkBessBoard (super_clear chess (base self)) (current_ban self).

(** [BessBoard.generate_pseudo_legal_moves] (lines 100-126).  When
    [current_ban] matches none of the seven tests, [moves] is never bound
    and the loop raises [UnboundLocalError]. *)
Definition generate_pseudo_legal_moves (self : BessBoard Board)
  (from_mask to_mask : Bitboard) : result (list BessMove) :=
  let b := base self in
  let pm := super_generate_pseudo_legal_moves chess b (Z.land from_mask (pawns chess b)) to_mask in
  let nm := super_generate_pseudo_legal_moves chess b (Z.land from_mask (knights chess b)) to_mask in
  let bm := super_generate_pseudo_legal_moves chess b (Z.land from_mask (bishops chess b)) to_mask in
  let rm := super_generate_pseudo_legal_moves chess b (Z.land from_mask (rooks chess b)) to_mask in
  let qm := super_generate_pseudo_legal_moves chess b (Z.land from_mask (queens chess b)) to_mask in
  let km := super_generate_pseudo_legal_moves chess b (Z.land from_mask (kings chess b)) to_mask in
  moves <-
    (if ban_is (current_ban self) PAWN then Ok (nm ++ bm ++ rm ++ qm ++ km)
     else if ban_is (current_ban self) KNIGHT then Ok (pm ++ bm ++ rm ++ qm ++ km)
     else if ban_is (current_ban self) BISHOP then Ok (pm ++ nm ++ rm ++ qm ++ km)
     else if ban_is (current_ban self) ROOK then Ok (pm ++ nm ++ bm ++ qm ++ km)
     else if ban_is (current_ban self) QUEEN then Ok (pm ++ nm ++ bm ++ rm ++ km)
     else if ban_is (current_ban self) KING then Ok (pm ++ nm ++ bm ++ rm ++ qm)
     else if ban_is_None (current_ban self) then Ok (pm ++ nm ++ bm ++ rm ++ qm ++ km)
     else Raise UnboundLocalError) ;;
  Ok (flat_map announce moves).

(** [BessBoard.gives_check] (lines 129-130). *)
Definition gives_check (self : BessBoard Board) (m : BessMove) : result bool :=
  mv <- call (getattr_move m) ;;
  Ok (super_gives_check chess (base self) mv).


(* ------------------------------------------------------------------ *)
(** *** Methods inherited from [chess.Board]

    [BessBoard] overrides neither [push] nor [generate_legal_moves]; the
    versions of python-chess run on the subclass instance.  They own no
    knowledge of [current_ban]: the attribute matters only where they call
    [self.generate_pseudo_legal_moves], which resolves to the override.  The
    two generators below therefore take the resolved method as an argument
    [pseudo]. *)

(** [chess.Board.push(move)] applied to a [BessMove]: the base state
    advances, the subclass attribute stays as it is. *)
Definition push (self : BessBoard Board) (m : BessMove) : BessBoard Board :=
  mkBessBoard
    (super_push chess (base self) (as_move (Bess m)) (BessMove_bool m))
    (current_ban self).

(** The attackers of the king of the side to move
    ([chess.Board.checkers_mask()]; no king is a promoted piece). *)
Definition checkers_mask (b : Board) : Bitboard :=
  let king_mask := Z.land (kings chess b) (occupied_co chess b (turn chess b)) in
  if nonzero king_mask
  then attackers_mask chess b (negb (turn chess b)) (msb king_mask)
  else 0.

(** [chess.Board.is_check()]: [bool(self.checkers_mask())]. *)
Definition is_check (self : BessBoard Board) : bool :=
  nonzero (checkers_mask (base self)).

(** [chess.Board._generate_evasions(king, checkers, from_mask, to_mask)].
    The king steps are built by the method itself as [chess.Move]s; blocks
    and captures of a single checker come from
    [self.generate_pseudo_legal_moves]. *)
Definition generate_evasions_with
  (pseudo : Bitboard -> Bitboard -> result (list GenMove))
  (b : Board) (king : Square) (checkers from_mask to_mask : Bitboard)
  : result (list GenMove) :=
  let sliders := Z.land checkers
                   (Z.lor (Z.lor (bishops chess b) (rooks chess b)) (queens chess b)) in
  let attacked :=
    fold_left (fun acc checker =>
                 Z.lor acc (Z.land (ray chess king checker) (Z.lnot (BB_SQUARES checker))))
              (scan_reversed sliders) 0 in
  let king_moves :=
    if nonzero (Z.land (BB_SQUARES king) from_mask) then
      map (fun to_sq => Plain (mkMove king to_sq None None))
          (scan_reversed
             (Z.land (Z.land (Z.land (BB_KING_ATTACKS chess king)
                                     (Z.lnot (occupied_co chess b (turn chess b))))
                             (Z.lnot attacked))
                     to_mask))
    else [] in
  let checker := msb checkers in
  if BB_SQUARES checker =? checkers then
    let target := Z.lor (between chess king checker) checkers in
    blocks <- pseudo (Z.land (Z.lnot (kings chess b)) from_mask) (Z.land target to_mask) ;;
    let ep_moves :=
      match ep_square chess b with
      | Some ep =>
          if truthy ep && negb (nonzero (Z.land (BB_SQUARES ep) target)) then
            let last_double := ep + (if turn chess b then -8 else 8) in
            if last_double =? checker
            then map Plain (generate_pseudo_legal_ep chess b from_mask to_mask)
            else []
          else []
      | None => []
      end in
    Ok (king_moves ++ blocks ++ ep_moves)
  else
    Ok king_moves.

(** [chess.Board.generate_legal_moves(from_mask, to_mask)]
    ([is_variant_end()] is constantly false for [chess.Board]). *)
Definition generate_legal_moves_with
  (pseudo : Bitboard -> Bitboard -> result (list GenMove))
  (b : Board) (from_mask to_mask : Bitboard) : result (list GenMove) :=
  let king_mask := Z.land (kings chess b) (occupied_co chess b (turn chess b)) in
  if nonzero king_mask then
    let king := msb king_mask in
    let blockers := slider_blockers chess b king in
    let checkers := attackers_mask chess b (negb (turn chess b)) king in
    if nonzero checkers then
      evasions <- generate_evasions_with pseudo b king checkers from_mask to_mask ;;
      Ok (filter (fun g => is_safe chess b king blockers (origin g) (target g)) evasions)
    else
      moves <- pseudo from_mask to_mask ;;
      Ok (filter (fun g => is_safe chess b king blockers (origin g) (target g)) moves)
  else
    pseudo from_mask to_mask.

(** [self.generate_pseudo_legal_moves] on a [BessBoard]: the override. *)
Definition bess_pseudo (self : BessBoard Board) (from_mask to_mask : Bitboard)
  : result (list GenMove) :=
  l <- generate_pseudo_legal_moves self from_mask to_mask ;;
  Ok (map Bess l).

(** [self.generate_pseudo_legal_moves] on a plain [chess.Board]. *)
Definition chess_pseudo (b : Board) (from_mask to_mask : Bitboard)
  : result (list GenMove) :=
  Ok (map Plain (super_generate_pseudo_legal_moves chess b from_mask to_mask)).

(** [generate_legal_moves] as it runs on a [BessBoard]. *)
Definition generate_legal_moves (self : BessBoard Board)
  (from_mask to_mask : Bitboard) : result (list GenMove) :=
  generate_legal_moves_with (bess_pseudo self) (base self) from_mask to_mask.

(** [generate_legal_moves] as it runs on a plain [chess.Board] in the same
    position: the legal chess moves, bans aside. *)
Definition chess_generate_legal_moves (b : Board)
  (from_mask to_mask : Bitboard) : result (list GenMove) :=
  generate_legal_moves_with (chess_pseudo b) b from_mask to_mask.

(** [LegalBessMoveGenerator.__iter__] (lines 141-142). *)
Definition LegalBessMoveGenerator_iter (self : BessBoard Board)
  : result (list GenMove) :=
  generate_legal_moves self BB_ALL BB_ALL.

(* ------------------------------------------------------------------ *)
(** *** Vocabulary of the specification *)

(** The bitboard of the pieces of one type. *)
Definition piece_mask (b : Board) (t : PieceType) : Bitboard :=
  if t =? PAWN then pawns chess b
  else if t =? KNIGHT then knights chess b
  else if t =? BISHOP then bishops chess b
  else if t =? ROOK then rooks chess b
  else if t =? QUEEN then queens chess b
  else if t =? KING then kings chess b
  else 0.

(** The piece types that [current_ban] leaves free to move. *)
Definition unbanned_types (ban : option PieceType) : list PieceType :=
  filter (fun t => negb (ban_is ban t)) PIECE_TYPES.

(** The test that [generate_legal_moves] applies to a candidate when the
    side to move is not in check: [_is_safe] if it has a king, nothing
    otherwise. *)
Definition kept (b : Board) (g : GenMove) : bool :=
  let king_mask := Z.land (kings chess b) (occupied_co chess b (turn chess b)) in
  if nonzero king_mask
  then is_safe chess b (msb king_mask) (slider_blockers chess b (msb king_mask))
         (origin g) (target g)
  else true.

(** The piece types whose bitboard holds [square]. *)
Definition piece_types_at (b : Board) (square : Square) : list PieceType :=
  filter (fun t => Z.testbit (piece_mask b t) square) PIECE_TYPES.

(** [square] is occupied by a piece of the banned type. *)
Definition banned_square (self : BessBoard Board) (square : Square) : bool :=
  match current_ban self with
  | Some t => Z.testbit (piece_mask (base self) t) square
  | None => false
  end.

(** The pseudo-legal chess moves available to pieces whose type differs
    from [current_ban]. *)
Definition unbanned_chess_moves (self : BessBoard Board)
  (from_mask to_mask : Bitboard) : list Move :=
  filter (fun m => negb (banned_square self (move_from_square m)))
         (super_generate_pseudo_legal_moves chess (base self) from_mask to_mask).

(** What python-chess promises about [from_mask]: asking for the moves of
    the pieces of one type gives the moves, in order, that start on a
    square of that type. *)
Definition from_mask_restricts (b : Board) (from_mask to_mask : Bitboard) : Prop :=
  forall t, In t PIECE_TYPES ->
    super_generate_pseudo_legal_moves chess b (Z.land from_mask (piece_mask b t)) to_mask
    = filter (fun m => Z.testbit (piece_mask b t) (move_from_square m))
             (super_generate_pseudo_legal_moves chess b from_mask to_mask).

(** Every pseudo-legal chess move starts on a square that holds exactly one
    type of piece. *)
Definition one_piece_per_origin (b : Board) (from_mask to_mask : Bitboard) : Prop :=
  Forall (fun m => exists t, piece_types_at b (move_from_square m) = [t])
         (super_generate_pseudo_legal_moves chess b from_mask to_mask).

(** The same, as a test that runs. *)
Definition one_piece_per_origin_b (b : Board) (from_mask to_mask : Bitboard) : bool :=
  forallb (fun m => match piece_types_at b (move_from_square m) with
                    | [_] => true
                    | _ => false
                    end)
          (super_generate_pseudo_legal_moves chess b from_mask to_mask).

(** Termination classes of the specification (section 4.4). *)
Inductive Outcome : Type :=
| CONTINUE
| CHECKMATE (side : bool)
| STALEMATE.

(** Modelled from the spec: [outcome] of the GameEvaluator (section 4.4),
    which the repository does not define.  CHECKMATE when the side to move
    is in check and [generate_legal] is empty, STALEMATE when it is not in
    check and [generate_legal] is empty, CONTINUE otherwise; the side
    reported with CHECKMATE is the side to move. *)
Definition outcome (self : BessBoard Board) : result Outcome :=
  legal <- generate_legal_moves self BB_ALL BB_ALL ;;
  Ok (match legal with
      | [] => if is_check self then CHECKMATE (turn chess (base self)) else STALEMATE
      | _ :: _ => CONTINUE
      end).

End Board.

Arguments piece_mask {Board} chess b t.
Arguments banned_square {Board} chess self square.
Arguments kept {Board} chess b g.
Arguments one_piece_per_origin_b {Board} chess b from_mask to_mask.

(* ================================================================== *)
(** ** A scripted collaborator

    The examples need a [chess.Board] to run against.  [Scripted.chess]
    answers for five named positions with what python-chess reports there;
    nothing else is scripted.

    - [Start]: the initial position.
    - [AfterE4]: the position after 1. e4, Black to move.
    - [RookCheck]: White Ke1; Black Ka8, Re8; White to move, in check.
    - [PinnedKnight]: White Kh1, Ng2; Black Kh8, Qa8; White to move.  The
      knight is pinned on the long diagonal, the king can go to g1 and h2.
    - [Empty]: the board after [clear()]. *)

Module Scripted.

Inductive Position : Type :=
| Start
| AfterE4
| RookCheck
| PinnedKnight
| Empty.

Definition sq (name : string) : Square :=
  match square_index name with
  | Ok s => s
  | Raise _ => 0
  end.

Definition squares (names : list string) : Bitboard :=
  fold_right (fun n acc => Z.lor (BB_SQUARES (sq n)) acc) 0 names.

Definition mv (a b : string) : Move := mkMove (sq a) (sq b) None None.

Definition same_squares (m m' : Move) : bool :=
  (move_from_square m =? move_from_square m')
  && (move_to_square m =? move_to_square m').

Definition s_turn (p : Position) : bool :=
  match p with
  | AfterE4 => false
  | _ => true
  end.

Definition s_white (p : Position) : Bitboard :=
  match p with
  | Start =>
      squares ["a1"; "b1"; "c1"; "d1"; "e1"; "f1"; "g1"; "h1";
               "a2"; "b2"; "c2"; "d2"; "e2"; "f2"; "g2"; "h2"]%string
  | AfterE4 =>
      squares ["a1"; "b1"; "c1"; "d1"; "e1"; "f1"; "g1"; "h1";
               "a2"; "b2"; "c2"; "d2"; "e4"; "f2"; "g2"; "h2"]%string
  | RookCheck => squares ["e1"]%string
  | PinnedKnight => squares ["h1"; "g2"]%string
  | Empty => 0
  end.

Definition s_black (p : Position) : Bitboard :=
  match p with
  | Start | AfterE4 =>
      squares ["a7"; "b7"; "c7"; "d7"; "e7"; "f7"; "g7"; "h7";
               "a8"; "b8"; "c8"; "d8"; "e8"; "f8"; "g8"; "h8"]%string
  | RookCheck => squares ["a8"; "e8"]%string
  | PinnedKnight => squares ["a8"; "h8"]%string
  | Empty => 0
  end.

Definition s_pawns (p : Position) : Bitboard :=
  match p with
  | Start =>
      squares ["a2"; "b2"; "c2"; "d2"; "e2"; "f2"; "g2"; "h2";
               "a7"; "b7"; "c7"; "d7"; "e7"; "f7"; "g7"; "h7"]%string
  | AfterE4 =>
      squares ["a2"; "b2"; "c2"; "d2"; "e4"; "f2"; "g2"; "h2";
               "a7"; "b7"; "c7"; "d7"; "e7"; "f7"; "g7"; "h7"]%string
  | _ => 0
  end.

Definition s_knights (p : Position) : Bitboard :=
  match p with
  | Start | AfterE4 => squares ["b1"; "g1"; "b8"; "g8"]%string
  | PinnedKnight => squares ["g2"]%string
  | _ => 0
  end.

Definition s_bishops (p : Position) : Bitboard :=
  match p with
  | Start | AfterE4 => squares ["c1"; "f1"; "c8"; "f8"]%string
  | _ => 0
  end.

Definition s_rooks (p : Position) : Bitboard :=
  match p with
  | Start | AfterE4 => squares ["a1"; "h1"; "a8"; "h8"]%string
  | RookCheck => squares ["e8"]%string
  | _ => 0
  end.

Definition s_queens (p : Position) : Bitboard :=
  match p with
  | Start | AfterE4 => squares ["d1"; "d8"]%string
  | PinnedKnight => squares ["a8"]%string
  | _ => 0
  end.

Definition s_kings (p : Position) : Bitboard :=
  match p with
  | Start | AfterE4 => squares ["e1"; "e8"]%string
  | RookCheck => squares ["e1"; "a8"]%string
  | PinnedKnight => squares ["h1"; "h8"]%string
  | Empty => 0
  end.

(** [ep_square] is set by a double pawn step. *)
Definition s_ep_square (p : Position) : option Square :=
  match p with
  | AfterE4 => Some (sq "e3")
  | _ => None
  end.

(** The pseudo-legal chess moves with both masks full, in the order
    python-chess yields them: piece moves from the highest square down,
    then single and double pawn steps. *)
Definition s_pseudo (p : Position) : list Move :=
  match p with
  | Start =>
      [mv "g1" "h3"; mv "g1" "f3"; mv "b1" "c3"; mv "b1" "a3";
       mv "h2" "h3"; mv "g2" "g3"; mv "f2" "f3"; mv "e2" "e3";
       mv "d2" "d3"; mv "c2" "c3"; mv "b2" "b3"; mv "a2" "a3";
       mv "h2" "h4"; mv "g2" "g4"; mv "f2" "f4"; mv "e2" "e4";
       mv "d2" "d4"; mv "c2" "c4"; mv "b2" "b4"; mv "a2" "a4"]%string
  | AfterE4 =>
      [mv "g8" "h6"; mv "g8" "f6"; mv "b8" "c6"; mv "b8" "a6";
       mv "h7" "h6"; mv "g7" "g6"; mv "f7" "f6"; mv "e7" "e6";
       mv "d7" "d6"; mv "c7" "c6"; mv "b7" "b6"; mv "a7" "a6";
       mv "h7" "h5"; mv "g7" "g5"; mv "f7" "f5"; mv "e7" "e5";
       mv "d7" "d5"; mv "c7" "c5"; mv "b7" "b5"; mv "a7" "a5"]%string
  | RookCheck =>
      [mv "e1" "f2"; mv "e1" "e2"; mv "e1" "d2"; mv "e1" "f1"; mv "e1" "d1"]%string
  | PinnedKnight =>
      [mv "g2" "h4"; mv "g2" "f4"; mv "g2" "e3"; mv "g2" "e1";
       mv "h1" "h2"; mv "h1" "g1"]%string
  | Empty => []
  end.

(** The moves [_is_safe] rejects: the king stepping onto the open e-file,
    the pinned knight leaving the diagonal. *)
Definition s_unsafe (p : Position) : list Move :=
  match p with
  | RookCheck => [mv "e1" "e2"]%string
  | PinnedKnight =>
      [mv "g2" "h4"; mv "g2" "f4"; mv "g2" "e3"; mv "g2" "e1"]%string
  | _ => []
  end.

(** [attackers_mask(color, square)], scripted for the king of the side to
    move. *)
Definition s_attackers (p : Position) (color : bool) (square : Square) : Bitboard :=
  match p with
  | RookCheck =>
      if negb color && (square =? sq "e1") then squares ["e8"]%string else 0
  | _ => 0
  end.

Definition s_slider_blockers (p : Position) (king : Square) : Bitboard :=
  match p with
  | PinnedKnight => if king =? sq "h1" then squares ["g2"]%string else 0
  | _ => 0
  end.

(** The entries of the tables that [RookCheck] reads: the neighbours of
    e1, and the e-file between e1 and e8. *)
Definition s_BB_KING_ATTACKS (king : Square) : Bitboard :=
  if king =? sq "e1" then squares ["d1"; "f1"; "d2"; "e2"; "f2"]%string else 0.

Definition s_ray (a b : Square) : Bitboard :=
  if (a =? sq "e1") && (b =? sq "e8")
  then squares ["e1"; "e2"; "e3"; "e4"; "e5"; "e6"; "e7"; "e8"]%string
  else 0.

Definition s_between (a b : Square) : Bitboard :=
  if (a =? sq "e1") && (b =? sq "e8")
  then squares ["e2"; "e3"; "e4"; "e5"; "e6"; "e7"]%string
  else 0.

(** [push]: the one scripted step is 1. e4 from the initial position. *)
Definition s_push (p : Position) (m : Move) (truth : bool) : Position :=
  match p with
  | Start => if same_squares m (mv "e2" "e4") then AfterE4 else p
  | _ => p
  end.

Definition chess : ChessBoard Position := {|
  turn := s_turn;
  occupied_co := fun p color => if color then s_white p else s_black p;
  pawns := s_pawns;
  knights := s_knights;
  bishops := s_bishops;
  rooks := s_rooks;
  queens := s_queens;
  kings := s_kings;
  ep_square := s_ep_square;
  super_generate_pseudo_legal_moves := fun p from_mask to_mask =>
    filter (fun m => Z.testbit from_mask (move_from_square m)
                     && Z.testbit to_mask (move_to_square m))
           (s_pseudo p);
  generate_pseudo_legal_ep := fun _ _ _ => [];
  attackers_mask := s_attackers;
  slider_blockers := s_slider_blockers;
  is_safe := fun p _ _ from_sq to_sq =>
    negb (existsb (same_squares (mkMove from_sq to_sq None None)) (s_unsafe p));
  BB_KING_ATTACKS := s_BB_KING_ATTACKS;
  ray := s_ray;
  between := s_between;
  super_gives_check := fun _ _ => false;
  super_reset := fun _ => Start;
  super_clear := fun _ => Empty;
  super_push := s_push
|}.

(** The moves of the examples. *)
Definition e2e4_n : BessMove :=
  mkBessMove (sq "e2") (sq "e4") (Some KNIGHT) None None.

Definition e2e4_q : BessMove :=
  mkBessMove (sq "e2") (sq "e4") (Some QUEEN) None None.

Definition g8f6_p : BessMove :=
  mkBessMove (sq "g8") (sq "f6") (Some PAWN) None None.

(** The boards of the examples. *)
Definition start : BessBoard Position := mkBessBoard Start None.

Definition rook_check_king_banned : BessBoard Position :=
  mkBessBoard RookCheck (Some KING).

Definition pinned_knight_king_banned : BessBoard Position :=
  mkBessBoard PinnedKnight (Some KING).

End Scripted.

(* ================================================================== *)
(** ** The remaining methods of the source *)

(** [BessMove.__str__] (lines 44-45). *)
Definition BessMove_str (self : BessMove) : result string := uci self.

(** [BessMove.__repr__] (lines 41-42): the f-string around [self.uci()!r];
    [repr] is the builtin on strings. *)
Definition BessMove_repr (repr : string -> string) (self : BessMove)
  : result string :=
  s <- uci self ;;
  Ok ("Bess_Move.from_uci(" ++ repr s ++ ")")%string.


(** The move [m] with another announcement. *)
Definition with_ban (piece : PieceType) (m : BessMove) : BessMove :=
  mkBessMove (from_square m) (to_square m) (Some piece) (promotion m) (drop m).

(** The chess moves that the base generator yields for the pieces of one
    type. *)
Definition moves_of_type {Board : Type} (chess : ChessBoard Board) (b : Board)
  (from_mask to_mask : Bitboard) (t : PieceType) : list Move :=
  super_generate_pseudo_legal_moves chess b
    (Z.land from_mask (piece_mask chess b t)) to_mask.


(** More boards and moves for the examples. *)
Definition start_knights_banned : BessBoard Scripted.Position :=
  mkBessBoard Scripted.Start (Some KNIGHT).

Definition start_queens_banned : BessBoard Scripted.Position :=
  mkBessBoard Scripted.Start (Some QUEEN).

Definition rook_check_no_ban : BessBoard Scripted.Position :=
  mkBessBoard Scripted.RookCheck None.



(* ================================================================== *)
(** * Properties of [BessMove] *)

Lemma piece_type_truthy (p : PieceType) : In p PIECE_TYPES -> truthy p = true.
Proof.
  unfold PIECE_TYPES, PAWN, KNIGHT, BISHOP, ROOK, QUEEN, KING; simpl.
  intros H; repeat (destruct H as [<- | H]; [reflexivity |]); contradiction.
Qed.

Lemma optional_piece_type_falsy (o : option PieceType) :
  optional_piece_type o -> (truthy_opt o = false <-> o = None).
Proof.
  destruct o as [p |]; simpl; intros H.
  - rewrite (piece_type_truthy p H). split; discriminate.
  - split; reflexivity.
Qed.

Lemma truthy_false (z : Z) : truthy z = false <-> z = 0.
Proof.
  unfold truthy. rewrite negb_false_iff. apply Z.eqb_eq.
Qed.

Lemma get_past_end (s : string) :
  forall n : nat, (String.length s <= n)%nat -> String.get n s = None.
Proof.
  induction s as [| c s IH]; intros n Hn.
  - destruct n; reflexivity.
  - destruct n as [| n]; simpl in *.
    + lia.
    + apply IH. lia.
Qed.

Lemma str_item_past_end (s : string) (n : nat) :
  len s = Z.of_nat n -> str_item s n = Raise IndexError.
Proof.
  unfold len, str_item. intros H.
  rewrite get_past_end; [reflexivity | lia].
Qed.

Lemma list_index_from_raises {A : Type} (eqb : A -> A -> bool) (x : A) (l : list A) :
  forall pos e, list_index_from eqb x l pos = Raise e -> e = ValueError.
Proof.
  induction l as [| y l IH]; simpl; intros pos e H.
  - congruence.
  - destruct (eqb y x); [discriminate | eauto].
Qed.

Lemma square_index_raises (name : string) (e : exn) :
  square_index name = Raise e -> e = ValueError.
Proof. apply list_index_from_raises. Qed.

Lemma symbol_index_raises (c : string) (e : exn) :
  symbol_index c = Raise e -> e = ValueError.
Proof. apply list_index_from_raises. Qed.

(** [uci] never returns: its first step reads [promotion] from the bound
    method [self.move]. *)
Lemma uci_raises (m : BessMove) : uci m = Raise AttributeError.
Proof. reflexivity. Qed.

(** The six-character branch always raises. *)
Lemma from_uci_six (s : string) :
  len s = 6 ->
  (from_sq <- square_index (str_slice s 0 2) ;;
   to_sq <- square_index (str_slice s 2 4) ;;
   c <- str_item s 6 ;;
   ban <- symbol_index c ;;
   Ok (from_sq, to_sq, ban)) = Raise ValueError
  \/
  (from_sq <- square_index (str_slice s 0 2) ;;
   to_sq <- square_index (str_slice s 2 4) ;;
   c <- str_item s 6 ;;
   ban <- symbol_index c ;;
   Ok (from_sq, to_sq, ban)) = Raise IndexError.
Proof.
  intros Hlen.
  destruct (square_index (str_slice s 0 2)) as [f | e] eqn:Hf; simpl.
  - destruct (square_index (str_slice s 2 4)) as [t | e] eqn:Ht; simpl.
    + rewrite (str_item_past_end s 6 Hlen). right; reflexivity.
    + apply square_index_raises in Ht; subst e. left; reflexivity.
  - apply square_index_raises in Hf; subst e. left; reflexivity.
Qed.

(** The seven-character branch always raises. *)
Lemma from_uci_seven (s : string) :
  len s = 7 ->
  (from_sq <- square_index (str_slice s 0 2) ;;
   to_sq <- square_index (str_slice s 2 4) ;;
   c <- str_item s 5 ;;
   promo <- symbol_index c ;;
   c' <- str_item s 7 ;;
   ban <- symbol_index c' ;;
   Ok (from_sq, to_sq, promo, ban)) = Raise ValueError
  \/
  (from_sq <- square_index (str_slice s 0 2) ;;
   to_sq <- square_index (str_slice s 2 4) ;;
   c <- str_item s 5 ;;
   promo <- symbol_index c ;;
   c' <- str_item s 7 ;;
   ban <- symbol_index c' ;;
   Ok (from_sq, to_sq, promo, ban)) = Raise IndexError.
Proof.
  intros Hlen.
  destruct (square_index (str_slice s 0 2)) as [f | e] eqn:Hf; simpl.
  - destruct (square_index (str_slice s 2 4)) as [t | e] eqn:Ht; simpl.
    + destruct (str_item s 5) as [c | e] eqn:Hc; simpl.
      * destruct (symbol_index c) as [promo | e] eqn:Hp; simpl.
        -- rewrite (str_item_past_end s 7 Hlen). right; reflexivity.
        -- apply symbol_index_raises in Hp; subst e. left; reflexivity.
      * unfold str_item in Hc. destruct (String.get 5 s); [discriminate |].
        injection Hc as <-. right; reflexivity.
    + apply square_index_raises in Ht; subst e. left; reflexivity.
  - apply square_index_raises in Hf; subst e. left; reflexivity.
Qed.

(** What [from_uci] does on every string: it returns only for ["0000"], and
    otherwise raises [InvalidMoveError] or lets an [IndexError] escape. *)
Lemma from_uci_cases (s : string) :
  (s = "0000"%string /\ from_uci s = Ok null)
  \/ from_uci s = Raise InvalidMoveError
  \/ from_uci s = Raise IndexError.
Proof.
  unfold from_uci.
  destruct (String.eqb s "0000") eqn:H0.
  - left. apply String.eqb_eq in H0. auto.
  - right.
    destruct ((len s =? 6) && _) eqn:H6.
    + apply andb_true_iff in H6 as [H6 _]. apply Z.eqb_eq in H6.
      destruct (from_uci_six s H6) as [-> | ->]; simpl; auto.
    + destruct ((len s =? 7) && _) eqn:H7.
      * apply andb_true_iff in H7 as [H7 _]. apply Z.eqb_eq in H7.
        destruct (from_uci_seven s H7) as [-> | ->]; simpl; auto.
      * auto.
Qed.

(** C10.  A [BessMove] whose [promotion] and [ban_piece] hold [None] or a
    piece type is falsy exactly when [from_square] and [to_square] are 0
    and both [promotion] and [ban_piece] are [None].  [null()] is falsy, and
    a move that carries one of the six piece types as [ban_piece] is truthy
    even from square 0 to square 0. *)
Theorem C10_bool_false_iff_null_fields (m : BessMove) :
  optional_piece_type (promotion m) ->
  optional_piece_type (ban_piece m) ->
  (BessMove_bool m = false
   <-> from_square m = 0 /\ to_square m = 0
       /\ promotion m = None /\ ban_piece m = None)
  /\ BessMove_bool null = false
  /\ (forall piece promo dropped,
         In piece PIECE_TYPES ->
         BessMove_bool (mkBessMove 0 0 (Some piece) promo dropped) = true).
Proof.
  intros Hp Hb. split; [| split].
  - unfold BessMove_bool.
    rewrite !orb_false_iff, !truthy_false.
    rewrite (optional_piece_type_falsy _ Hp), (optional_piece_type_falsy _ Hb).
    tauto.
  - reflexivity.
  - intros piece promo dropped Hin. unfold BessMove_bool; simpl.
    rewrite (piece_type_truthy piece Hin). apply orb_true_r.
Qed.

(** C10 at [BessMove.null()]. *)
Lemma C10_witness :
  (BessMove_bool null = false
   <-> from_square null = 0 /\ to_square null = 0
       /\ promotion null = None /\ ban_piece null = None)
  /\ BessMove_bool null = false
  /\ (forall piece promo dropped,
         In piece PIECE_TYPES ->
         BessMove_bool (mkBessMove 0 0 (Some piece) promo dropped) = true).
Proof.
  apply (C10_bool_false_iff_null_fields null); exact I.
Defined.

(** C3.  The round trip does not hold in the code: [uci] raises
    [AttributeError] for every move, so [from_uci(m.uci())] never gives [m]
    back; [from_uci] rejects the documented string ["e2e4:n"], and on
    ["0000"], the one string it accepts, encoding the result raises. *)
Theorem C3_round_trip_raises :
  (forall m, (s <- uci m ;; from_uci s) = Raise AttributeError)
  /\ (m <- from_uci "e2e4:n" ;; uci m) = Raise InvalidMoveError
  /\ (m <- from_uci "0000" ;; uci m) = Raise AttributeError.
Proof.
  split; [| split]; [intros m |..]; reflexivity.
Qed.

(** C6.  [from_uci] returns for ["0000"] only.  Every other string raises
    [InvalidMoveError] or lets an [IndexError] escape: the documented shapes
    ["e2e4:n"] and ["e7e8q:n"] are refused, and a string of six or seven
    characters that ends in a colon after two square names reaches an index
    past its end. *)
Theorem C6_from_uci_accepts_only_null :
  (forall s,
      (s = "0000"%string /\ from_uci s = Ok null)
      \/ from_uci s = Raise InvalidMoveError
      \/ from_uci s = Raise IndexError)
  /\ from_uci "e2e4:n" = Raise InvalidMoveError
  /\ from_uci "e7e8q:n" = Raise InvalidMoveError
  /\ from_uci "e2e4n:" = Raise IndexError
  /\ from_uci "e7e8qn:" = Raise IndexError.
Proof.
  split; [exact from_uci_cases |].
  repeat split; reflexivity.
Qed.

(** C7.  The codec scenario on the code: [from_uci("e2e4:n")] raises
    [InvalidMoveError], [uci] of the move e2-e4 banning knights raises
    [AttributeError], [from_uci("0000")] returns the null move, and [uci]
    of the null move raises [AttributeError]. *)
Theorem C7_codec_scenario :
  from_uci "e2e4:n" = Raise InvalidMoveError
  /\ uci (mkBessMove 12 28 (Some KNIGHT) None None) = Raise AttributeError
  /\ from_uci "0000" = Ok null
  /\ uci null = Raise AttributeError.
Proof.
  repeat split; reflexivity.
Qed.

(* ================================================================== *)
(** * Properties of [BessBoard] *)

(** ** Lists grouped by a key *)

Section Grouping.

Context {A : Type}.

Lemma filter_none (l : list A) : filter (fun _ => false) l = [].
Proof. induction l; simpl; auto. Qed.

Lemma filter_all (l : list A) : filter (fun _ => true) l = l.
Proof. induction l; simpl; congruence. Qed.

(** Filtering by one of two tests that never hold together splits the
    list. *)
Lemma filter_orb_disjoint (p q : A -> bool) (l : list A) :
  (forall x, In x l -> p x = true -> q x = true -> False) ->
  Permutation (filter (fun x => p x || q x) l) (filter p l ++ filter q l).
Proof.
  induction l as [| x l IH]; intros Hd; simpl.
  - constructor.
  - assert (IH' : Permutation (filter (fun x => p x || q x) l)
                              (filter p l ++ filter q l)).
    { apply IH. intros y Hy. apply Hd. now right. }
    destruct (p x) eqn:Hp, (q x) eqn:Hq; simpl.
    + exfalso. apply (Hd x); auto. now left.
    + now apply perm_skip.
    + now apply Permutation_cons_app.
    + exact IH'.
Qed.

(** Collecting, key by key, the elements a key selects is a rearrangement
    of the elements some key selects, when no element is selected twice. *)
Lemma group_by_keys (P : Z -> A -> bool) (keys : list Z) (l : list A) :
  NoDup keys ->
  (forall x t t', In x l -> In t keys -> In t' keys ->
                  P t x = true -> P t' x = true -> t = t') ->
  Permutation (flat_map (fun t => filter (P t) l) keys)
              (filter (fun x => existsb (fun t => P t x) keys) l).
Proof.
  induction keys as [| t keys IH]; intros Hnd Hu; simpl.
  - rewrite filter_none. constructor.
  - inversion Hnd as [| ? ? Hnotin Hnd']; subst.
    apply Permutation_sym.
    eapply Permutation_trans.
    + apply filter_orb_disjoint.
      intros x Hx Hp Hq. apply existsb_exists in Hq as (t' & Ht' & Hpt').
      apply Hnotin.
      rewrite (Hu x t t' Hx (or_introl eq_refl) (or_intror Ht') Hp Hpt').
      exact Ht'.
    + apply Permutation_app_head. apply Permutation_sym. apply IH.
      * exact Hnd'.
      * intros x a b Hx Ha Hb. apply Hu; auto; now right.
Qed.

Lemma flat_map_ext_in {B : Type} (f g : A -> list B) (l : list A) :
  (forall a, In a l -> f a = g a) -> flat_map f l = flat_map g l.
Proof.
  induction l as [| a l IH]; intros H; simpl.
  - reflexivity.
  - rewrite (H a (or_introl eq_refl)), IH; [reflexivity |].
    intros b Hb. apply H. now right.
Qed.

End Grouping.

Lemma announce_length (m : Move) : List.length (announce m) = 6%nat.
Proof. reflexivity. Qed.

Lemma flat_map_announce_length (l : list Move) :
  List.length (flat_map announce l) = (6 * List.length l)%nat.
Proof.
  rewrite (flat_map_constant_length (c := 6%nat)).
  - lia.
  - intros; apply announce_length.
Qed.

Lemma in_announce (m : Move) (bm : BessMove) :
  In bm (announce m) <->
  exists piece, In piece PIECE_TYPES
    /\ bm = mkBessMove (move_from_square m) (move_to_square m)
              (Some piece) (move_promotion m) None.
Proof.
  unfold announce. rewrite in_map_iff.
  split; intros (piece & H1 & H2); exists piece; auto.
Qed.

Lemma NoDup_PIECE_TYPES : NoDup PIECE_TYPES.
Proof.
  unfold PIECE_TYPES, PAWN, KNIGHT, BISHOP, ROOK, QUEEN, KING.
  repeat constructor; simpl; intuition discriminate.
Qed.

Lemma in_unbanned_types (ban : option PieceType) (t : PieceType) :
  In t (unbanned_types ban) <-> In t PIECE_TYPES /\ ban <> Some t.
Proof.
  unfold unbanned_types. rewrite filter_In, negb_true_iff.
  destruct ban as [tb |]; simpl.
  - rewrite Z.eqb_neq. split; intros [H1 H2]; split; auto; congruence.
  - split; intros [H1 H2]; split; auto; discriminate.
Qed.

Section BoardProperties.

Context {Board : Type} (chess : ChessBoard Board).

(** ** The overridden generator *)

(** For a ban that is [None] or a piece type, the seven-way test of lines
    109-122 chains the base generator's answers for the types that are not
    banned, and every chess move is announced with each piece type. *)
Lemma generate_pseudo_legal_moves_chain (self : BessBoard Board)
  (from_mask to_mask : Bitboard) :
  optional_piece_type (current_ban self) ->
  generate_pseudo_legal_moves chess self from_mask to_mask
  = Ok (flat_map announce
          (flat_map (fun t => super_generate_pseudo_legal_moves chess (base self)
                                (Z.land from_mask (piece_mask chess (base self) t))
                                to_mask)
                    (unbanned_types (current_ban self)))).
Proof.
  destruct self as [b ban]. unfold generate_pseudo_legal_moves; simpl.
  destruct ban as [t |]; simpl.
  - unfold PAWN, KNIGHT, BISHOP, ROOK, QUEEN, KING.
    intros H; repeat (destruct H as [<- | H]; [simpl; rewrite ?app_nil_r; reflexivity |]).
    contradiction.
  - intros _. rewrite ?app_nil_r. reflexivity.
Qed.

(** With any other value in [current_ban] the generator raises. *)
Lemma generate_pseudo_legal_moves_unbound (self : BessBoard Board)
  (from_mask to_mask : Bitboard) (t : PieceType) :
  current_ban self = Some t -> ~ In t PIECE_TYPES ->
  generate_pseudo_legal_moves chess self from_mask to_mask = Raise UnboundLocalError.
Proof.
  destruct self as [b ban]; simpl. intros -> Hnot.
  unfold generate_pseudo_legal_moves, ban_is; simpl.
  unfold PIECE_TYPES in Hnot; simpl in Hnot.
  repeat match goal with
         | |- context [t =? ?p] =>
             destruct (Z.eqb_spec t p); [exfalso; apply Hnot; subst t; auto 10 |]
         end.
  reflexivity.
Qed.

(** A square that holds exactly one piece type answers the bitboard test of
    every type. *)
Lemma single_type_at (b : Board) (square : Square) (t0 : PieceType) :
  piece_types_at chess b square = [t0] ->
  In t0 PIECE_TYPES
  /\ forall t, In t PIECE_TYPES ->
       (Z.testbit (piece_mask chess b t) square = true <-> t = t0).
Proof.
  unfold piece_types_at. intros H.
  assert (Hin : forall t, In t (filter (fun t => Z.testbit (piece_mask chess b t) square)
                                   PIECE_TYPES) <-> t = t0).
  { intros t. rewrite H. simpl. intuition. }
  split.
  - apply (proj1 (filter_In _ _ _) (proj2 (Hin t0) eq_refl)).
  - intros t Ht. rewrite <- Hin, filter_In. tauto.
Qed.

(** Under the two promises on the base generator, the chained answers are a
    rearrangement of the moves of the unbanned pieces. *)
Lemma chain_unbanned (self : BessBoard Board) (from_mask to_mask : Bitboard) :
  optional_piece_type (current_ban self) ->
  from_mask_restricts chess (base self) from_mask to_mask ->
  one_piece_per_origin chess (base self) from_mask to_mask ->
  Permutation
    (flat_map (fun t => super_generate_pseudo_legal_moves chess (base self)
                          (Z.land from_mask (piece_mask chess (base self) t)) to_mask)
              (unbanned_types (current_ban self)))
    (unbanned_chess_moves chess self from_mask to_mask).
Proof.
  intros Hban Hmask Hone.
  set (b := base self) in *.
  set (L := super_generate_pseudo_legal_moves chess b from_mask to_mask).
  set (P := fun t m => Z.testbit (piece_mask chess b t) (move_from_square m)).
  assert (Hsingle : forall m, In m L -> exists t0, In t0 PIECE_TYPES
            /\ forall t, In t PIECE_TYPES -> (P t m = true <-> t = t0)).
  { intros m Hm. unfold one_piece_per_origin in Hone.
    rewrite Forall_forall in Hone. destruct (Hone m Hm) as (t0 & Ht0).
    exists t0. now apply single_type_at. }
  rewrite (flat_map_ext_in _ (fun t => filter (P t) L)).
  2:{ intros t Ht. apply in_unbanned_types in Ht as [Ht _]. exact (Hmask t Ht). }
  eapply Permutation_trans.
  - apply group_by_keys.
    + apply NoDup_filter, NoDup_PIECE_TYPES.
    + intros m t t' Hm Ht Ht' Hp Hp'.
      apply in_unbanned_types in Ht as [Ht _], Ht' as [Ht' _].
      destruct (Hsingle m Hm) as (t0 & _ & Hiff).
      apply Hiff in Hp, Hp'; congruence.
  - unfold unbanned_chess_moves. fold b. fold L.
    erewrite filter_ext_in; [apply Permutation_refl |].
    intros m Hm. destruct (Hsingle m Hm) as (t0 & Ht0 & Hiff).
    apply eq_true_iff_eq.
    rewrite existsb_exists, negb_true_iff. unfold banned_square. fold b.
    split.
    + intros (t & Ht & Hp). apply in_unbanned_types in Ht as [Ht Hne].
      apply Hiff in Hp; trivial. subst t0.
      destruct (current_ban self) as [tb |]; [| reflexivity].
      simpl in Hban. apply not_true_is_false. intros Hb.
      apply (Hiff tb Hban) in Hb. congruence.
    + intros Hb. exists t0. split.
      * apply in_unbanned_types. split; trivial.
        intros Heq. rewrite Heq in Hb.
        assert (Z.testbit (piece_mask chess b t0) (move_from_square m) = true)
          by (apply (Hiff t0 Ht0); reflexivity).
        congruence.
      * now apply Hiff.
Qed.

(** C1.  For a position whose ban is none or a piece type, over a base
    generator that keeps its promises about [from_mask],
    [generate_pseudo_legal_moves] returns the pseudo-legal chess moves of
    the pieces whose type is not banned, each announced once with each of
    the six piece types: its size is six times their number.  With no ban
    and the twenty chess moves of the initial position it yields 120. *)
Theorem C1_branching_factor (self : BessBoard Board) (from_mask to_mask : Bitboard) :
  optional_piece_type (current_ban self) ->
  from_mask_restricts chess (base self) from_mask to_mask ->
  one_piece_per_origin chess (base self) from_mask to_mask ->
  exists l,
    generate_pseudo_legal_moves chess self from_mask to_mask = Ok l
    /\ Permutation l
         (flat_map announce (unbanned_chess_moves chess self from_mask to_mask))
    /\ List.length l
       = (6 * List.length (unbanned_chess_moves chess self from_mask to_mask))%nat
    /\ (current_ban self = None ->
        List.length (super_generate_pseudo_legal_moves chess (base self)
                       from_mask to_mask) = 20%nat ->
        List.length l = 120%nat).
Proof.
  intros Hban Hmask Hone.
  pose proof (chain_unbanned self from_mask to_mask Hban Hmask Hone) as Hperm.
  eexists. split; [apply generate_pseudo_legal_moves_chain; exact Hban |].
  assert (Hlen : forall l l' : list Move, Permutation l l' ->
            List.length (flat_map announce l) = (6 * List.length l')%nat).
  { intros l l' Hp. rewrite flat_map_announce_length.
    now rewrite (Permutation_length Hp). }
  split; [| split].
  - apply Permutation_flat_map. exact Hperm.
  - apply Hlen. exact Hperm.
  - intros Hnone H20. rewrite (Hlen _ _ Hperm).
    unfold unbanned_chess_moves, banned_square. rewrite Hnone. simpl.
    rewrite filter_all, H20. reflexivity.
Qed.

(** ** The inherited methods *)

(** C2 (amended).  Applying moves with the inherited [push] leaves
    [current_ban] as it was, whatever the moves announce: after any
    sequence of pushes the attribute holds its initial value. *)
Theorem C2_push_keeps_current_ban (self : BessBoard Board) (moves : list BessMove) :
  current_ban (fold_left (push chess) moves self) = current_ban self.
Proof.
  revert self. induction moves as [| m moves IH]; intros self; simpl.
  - reflexivity.
  - rewrite IH. reflexivity.
Qed.

(** C8.  [gives_check] returns, and returns the same answer for two moves
    that agree on [from_square], [to_square] and [promotion]. *)
Theorem C8_gives_check_ignores_ban (self : BessBoard Board) (m1 m2 : BessMove) :
  from_square m1 = from_square m2 ->
  to_square m1 = to_square m2 ->
  promotion m1 = promotion m2 ->
  gives_check chess self m1 = gives_check chess self m2
  /\ exists answer, gives_check chess self m1 = Ok answer.
Proof.
  intros Hf Ht Hp. unfold gives_check, getattr_move, call, move; simpl.
  rewrite Hf, Ht, Hp. split; [reflexivity | eexists; reflexivity].
Qed.

(** C9.  [reset()] and [clear()] leave [current_ban] at [None] and hand the
    base state to the inherited method. *)
Theorem C9_reset_clear_drop_ban (self : BessBoard Board) :
  current_ban (reset chess self) = None
  /\ base (reset chess self) = super_reset chess (base self)
  /\ current_ban (clear chess self) = None
  /\ base (clear chess self) = super_clear chess (base self).
Proof.
  repeat split.
Qed.

(** ** Legal moves *)

Lemma nonzero_false (bb : Bitboard) : nonzero bb = false <-> bb = 0.
Proof. unfold nonzero. rewrite negb_false_iff. apply Z.eqb_eq. Qed.

Lemma bess_pseudo_ok (self : BessBoard Board) (from_mask to_mask : Bitboard) :
  optional_piece_type (current_ban self) ->
  exists l, generate_pseudo_legal_moves chess self from_mask to_mask = Ok l
            /\ bess_pseudo chess self from_mask to_mask = Ok (map Bess l).
Proof.
  intros Hban. unfold bess_pseudo.
  rewrite (generate_pseudo_legal_moves_chain _ _ _ Hban).
  eexists; split; reflexivity.
Qed.

(** Out of check the inherited generator filters what
    [self.generate_pseudo_legal_moves] yields. *)
Lemma generate_legal_moves_with_out_of_check
  (pseudo : Bitboard -> Bitboard -> result (list GenMove))
  (b : Board) (from_mask to_mask : Bitboard) :
  checkers_mask chess b = 0 ->
  generate_legal_moves_with chess pseudo b from_mask to_mask
  = (l <- pseudo from_mask to_mask ;; Ok (filter (kept chess b) l)).
Proof.
  unfold checkers_mask, generate_legal_moves_with, kept.
  destruct (nonzero (Z.land (kings chess b) (occupied_co chess b (turn chess b)))).
  - intros ->. simpl. reflexivity.
  - intros _. destruct (pseudo from_mask to_mask); simpl; [| reflexivity].
    now rewrite filter_all.
Qed.

(** In check the inherited generator returns as well. *)
Lemma generate_evasions_with_ok
  (pseudo : Bitboard -> Bitboard -> result (list GenMove))
  (b : Board) (king : Square) (checkers from_mask to_mask : Bitboard) :
  (forall fm tm, exists l, pseudo fm tm = Ok l) ->
  exists l, generate_evasions_with chess pseudo b king checkers from_mask to_mask = Ok l.
Proof.
  intros Hok. unfold generate_evasions_with.
  destruct (BB_SQUARES (msb checkers) =? checkers).
  - match goal with |- context [pseudo ?fm ?tm] => destruct (Hok fm tm) as (l & ->) end.
    simpl. eexists; reflexivity.
  - eexists; reflexivity.
Qed.

Lemma generate_legal_moves_ok (self : BessBoard Board) (from_mask to_mask : Bitboard) :
  optional_piece_type (current_ban self) ->
  exists legal, generate_legal_moves chess self from_mask to_mask = Ok legal.
Proof.
  intros Hban.
  assert (Hok : forall fm tm, exists l, bess_pseudo chess self fm tm = Ok l).
  { intros fm tm. destruct (bess_pseudo_ok self fm tm Hban) as (l & _ & ->). eauto. }
  unfold generate_legal_moves, generate_legal_moves_with.
  destruct (nonzero (Z.land _ _)).
  - destruct (nonzero (attackers_mask _ _ _ _)).
    + match goal with
      | |- context [generate_evasions_with chess ?p ?b ?k ?c ?fm ?tm] =>
          destruct (generate_evasions_with_ok p b k c fm tm Hok) as (l & ->)
      end.
      simpl. eexists; reflexivity.
    + destruct (Hok from_mask to_mask) as (l & ->). simpl. eexists; reflexivity.
  - apply Hok.
Qed.

(** Out of check, the legal moves of a [BessBoard] are the kept
    announcements of the chained chess moves. *)
Lemma generate_legal_moves_out_of_check (self : BessBoard Board)
  (from_mask to_mask : Bitboard) :
  optional_piece_type (current_ban self) ->
  checkers_mask chess (base self) = 0 ->
  exists l,
    generate_pseudo_legal_moves chess self from_mask to_mask = Ok l
    /\ generate_legal_moves chess self from_mask to_mask
       = Ok (filter (kept chess (base self)) (map Bess l)).
Proof.
  intros Hban Hcheck.
  destruct (bess_pseudo_ok self from_mask to_mask Hban) as (l & Hl & Hp).
  exists l. split; [exact Hl |].
  unfold generate_legal_moves.
  rewrite generate_legal_moves_with_out_of_check by exact Hcheck.
  rewrite Hp. reflexivity.
Qed.

Lemma chess_generate_legal_moves_out_of_check (b : Board)
  (from_mask to_mask : Bitboard) :
  checkers_mask chess b = 0 ->
  chess_generate_legal_moves chess b from_mask to_mask
  = Ok (filter (kept chess b)
          (map Plain (super_generate_pseudo_legal_moves chess b from_mask to_mask))).
Proof.
  intros Hcheck. unfold chess_generate_legal_moves.
  rewrite generate_legal_moves_with_out_of_check by exact Hcheck.
  reflexivity.
Qed.

(** Every legal move of a [BessBoard] out of check announces a chess move
    of an unbanned piece that the base class keeps as well. *)
Lemma legal_out_of_check_inv (self : BessBoard Board) (from_mask to_mask : Bitboard)
  (legal : list GenMove) (g : GenMove) :
  optional_piece_type (current_ban self) ->
  from_mask_restricts chess (base self) from_mask to_mask ->
  one_piece_per_origin chess (base self) from_mask to_mask ->
  checkers_mask chess (base self) = 0 ->
  generate_legal_moves chess self from_mask to_mask = Ok legal ->
  In g legal ->
  exists m piece,
    g = Bess (mkBessMove (move_from_square m) (move_to_square m)
                (Some piece) (move_promotion m) None)
    /\ In piece PIECE_TYPES
    /\ In m (unbanned_chess_moves chess self from_mask to_mask)
    /\ kept chess (base self) (Plain m) = true.
Proof.
  intros Hban Hmask Hone Hcheck Hlegal Hg.
  destruct (generate_legal_moves_out_of_check self from_mask to_mask Hban Hcheck)
    as (l & Hl & Hlegal').
  rewrite Hlegal' in Hlegal. injection Hlegal as <-.
  apply filter_In in Hg as [Hg Hkept].
  apply in_map_iff in Hg as (bm & <- & Hbm).
  rewrite (generate_pseudo_legal_moves_chain _ _ _ Hban) in Hl.
  injection Hl as <-.
  apply in_flat_map in Hbm as (m & Hm & Hbm).
  apply in_announce in Hbm as (piece & Hpiece & ->).
  exists m, piece. repeat split; trivial.
  eapply Permutation_in; [| exact Hm].
  apply chain_unbanned; assumption.
Qed.

(** Out of check the ban is respected: no legal move starts on a square of
    the banned piece type. *)
Lemma ban_exclusion_out_of_check (self : BessBoard Board)
  (from_mask to_mask : Bitboard) (legal : list GenMove) (g : GenMove) :
  optional_piece_type (current_ban self) ->
  from_mask_restricts chess (base self) from_mask to_mask ->
  one_piece_per_origin chess (base self) from_mask to_mask ->
  checkers_mask chess (base self) = 0 ->
  generate_legal_moves chess self from_mask to_mask = Ok legal ->
  In g legal ->
  banned_square chess self (origin g) = false.
Proof.
  intros Hban Hmask Hone Hcheck Hlegal Hg.
  destruct (legal_out_of_check_inv self from_mask to_mask legal g
              Hban Hmask Hone Hcheck Hlegal Hg) as (m & piece & -> & _ & Hm & _).
  unfold unbanned_chess_moves in Hm. apply filter_In in Hm as [_ Hm].
  apply negb_true_iff in Hm. exact Hm.
Qed.

(** C5.  For a position whose ban is none or a piece type, [outcome]
    returns; it is CHECKMATE exactly when the side to move is in check and
    has no legal move, and STALEMATE exactly when it is not in check and has
    no legal move.  In particular a side that is not in check, whose legal
    chess moves all belong to the king, and whose king is banned, is
    stalemated. *)
Theorem C5_outcome_classification (self : BessBoard Board) :
  optional_piece_type (current_ban self) ->
  exists legal o,
    generate_legal_moves chess self BB_ALL BB_ALL = Ok legal
    /\ outcome chess self = Ok o
    /\ ((exists side, o = CHECKMATE side)
        <-> is_check chess self = true /\ legal = [])
    /\ (o = STALEMATE <-> is_check chess self = false /\ legal = [])
    /\ (is_check chess self = false ->
        current_ban self = Some KING ->
        from_mask_restricts chess (base self) BB_ALL BB_ALL ->
        one_piece_per_origin chess (base self) BB_ALL BB_ALL ->
        (exists chess_legal,
            chess_generate_legal_moves chess (base self) BB_ALL BB_ALL = Ok chess_legal
            /\ forall g, In g chess_legal ->
                 Z.testbit (kings chess (base self)) (origin g) = true) ->
        o = STALEMATE).
Proof.
  intros Hban.
  destruct (generate_legal_moves_ok self BB_ALL BB_ALL Hban) as (legal & Hlegal).
  exists legal.
  exists (match legal with
          | [] => if is_check chess self
                  then CHECKMATE (turn chess (base self)) else STALEMATE
          | _ :: _ => CONTINUE
          end).
  split; [exact Hlegal |].
  split; [unfold outcome; rewrite Hlegal; reflexivity |].
  assert (Hscenario :
    is_check chess self = false ->
    current_ban self = Some KING ->
    from_mask_restricts chess (base self) BB_ALL BB_ALL ->
    one_piece_per_origin chess (base self) BB_ALL BB_ALL ->
    (exists chess_legal,
        chess_generate_legal_moves chess (base self) BB_ALL BB_ALL = Ok chess_legal
        /\ forall g, In g chess_legal ->
             Z.testbit (kings chess (base self)) (origin g) = true) ->
    legal = []).
  { intros Hcheck Hking Hmask Hone (chess_legal & Hcl & Hkings).
    apply nonzero_false in Hcheck.
    rewrite chess_generate_legal_moves_out_of_check in Hcl by exact Hcheck.
    injection Hcl as <-.
    destruct legal as [| g legal']; [reflexivity | exfalso].
    destruct (legal_out_of_check_inv self BB_ALL BB_ALL (g :: legal') g
                Hban Hmask Hone Hcheck Hlegal (or_introl eq_refl))
      as (m & piece & _ & _ & Hm & Hkept).
    unfold unbanned_chess_moves in Hm. apply filter_In in Hm as [HmL Hfree].
    assert (Hk : Z.testbit (kings chess (base self)) (origin (Plain m)) = true).
    { apply Hkings. apply filter_In. split; [| exact Hkept].
      apply in_map. exact HmL. }
    unfold banned_square in Hfree. rewrite Hking in Hfree.
    change (piece_mask chess (base self) KING) with (kings chess (base self)) in Hfree.
    change (origin (Plain m)) with (move_from_square m) in Hk.
    rewrite Hk in Hfree. discriminate. }
  split; [| split].
  - destruct legal; destruct (is_check chess self); split;
      try (intros (side & Hside)); try (intros [H1 H2]);
      try discriminate; eauto.
  - destruct legal; destruct (is_check chess self); split;
      try (intros [H1 H2]); try discriminate; auto.
  - intros Hcheck Hking Hmask Hone Hex.
    rewrite (Hscenario Hcheck Hking Hmask Hone Hex), Hcheck. reflexivity.
Qed.

(** ** In check: the evasions *)

(** The inherited evasion generator consults
    [self.generate_pseudo_legal_moves] for blocks and captures only; the
    king steps and the en-passant capture of a checking pawn are plain
    [chess.Move]s that do not pass through it. *)
Lemma generate_evasions_with_shape (b : Board) (king : Square)
  (checkers from_mask to_mask : Bitboard) :
  exists (king_moves ep_moves : list Move) (fm tm : Bitboard),
  forall pseudo,
    generate_evasions_with chess pseudo b king checkers from_mask to_mask
    = if BB_SQUARES (msb checkers) =? checkers
      then blocks <- pseudo fm tm ;;
           Ok (map Plain king_moves ++ blocks ++ map Plain ep_moves)
      else Ok (map Plain king_moves).
Proof.
  unfold generate_evasions_with.
  match goal with
  | |- context [if nonzero ?c then map (fun t => Plain (@?f t)) ?l else []] =>
      exists (if nonzero c then map f l else [])
  end.
  match goal with
  | |- context [match ep_square chess b with Some ep => @?e ep | None => [] end] =>
      exists (match ep_square chess b with
              | Some ep =>
                  if truthy ep
                     && negb (nonzero (Z.land (BB_SQUARES ep)
                                (Z.lor (between chess king (msb checkers)) checkers)))
                  then if ep + (if turn chess b then -8 else 8) =? msb checkers
                       then generate_pseudo_legal_ep chess b from_mask to_mask
                       else []
                  else []
              | None => []
              end)
  end.
  exists (Z.land (Z.lnot (kings chess b)) from_mask).
  exists (Z.land (Z.lor (between chess king (msb checkers)) checkers) to_mask).
  intros pseudo.
  assert (Hk : forall (c : bool) (l : list Square) (f : Square -> Move),
             (if c then map (fun t => Plain (f t)) l else [])
             = map Plain (if c then map f l else [])).
  { intros [] l f; simpl; [now rewrite map_map | reflexivity]. }
  rewrite Hk.
  destruct (BB_SQUARES (msb checkers) =? checkers); [| reflexivity].
  destruct (pseudo _ _); [| reflexivity]. simpl.
  destruct (ep_square chess b) as [ep |]; [| reflexivity].
  destruct (truthy ep && _); [| reflexivity].
  destruct (_ =? msb checkers); reflexivity.
Qed.

(** In check, the plain chess moves among the legal moves do not depend on
    [current_ban]: two boards in the same position with different bans
    yield the same ones. *)
Lemma plain_evasions_ignore_ban (self self' : BessBoard Board)
  (from_mask to_mask : Bitboard) (legal legal' : list GenMove) (m : Move) :
  base self = base self' ->
  is_check chess self = true ->
  generate_legal_moves chess self from_mask to_mask = Ok legal ->
  generate_legal_moves chess self' from_mask to_mask = Ok legal' ->
  In (Plain m) legal -> In (Plain m) legal'.
Proof.
  intros Hbase Hcheck Hl Hl' Hin.
  unfold is_check, checkers_mask in Hcheck.
  unfold generate_legal_moves, generate_legal_moves_with in Hl, Hl'.
  rewrite <- Hbase in Hl'.
  destruct (nonzero (Z.land (kings chess (base self))
                       (occupied_co chess (base self) (turn chess (base self)))));
    [| discriminate].
  rewrite Hcheck in Hl, Hl'.
  match type of Hl with
  | context [generate_evasions_with chess _ ?b ?k ?c ?fm ?tm] =>
      destruct (generate_evasions_with_shape b k c fm tm)
        as (king_moves & ep_moves & fm' & tm' & Hshape)
  end.
  rewrite Hshape in Hl, Hl'.
  destruct (BB_SQUARES _ =? _).
  - destruct (bess_pseudo chess self fm' tm') as [blocks |] eqn:Hb; [| discriminate].
    destruct (bess_pseudo chess self' fm' tm') as [blocks' |] eqn:Hb'; [| discriminate].
    simpl in Hl, Hl'. injection Hl as <-. injection Hl' as <-.
    apply filter_In in Hin as [Hin Hsafe]. apply filter_In. split; [| exact Hsafe].
    rewrite !in_app_iff in *.
    destruct Hin as [Hin | [Hin | Hin]]; auto.
    exfalso. unfold bess_pseudo in Hb.
    destruct (generate_pseudo_legal_moves chess self fm' tm'); [| discriminate].
    simpl in Hb. injection Hb as <-.
    apply in_map_iff in Hin as (bm & Hbm & _). discriminate.
  - simpl in Hl, Hl'. injection Hl as <-. injection Hl' as <-. exact Hin.
Qed.

Lemma one_piece_per_origin_check (b : Board) (from_mask to_mask : Bitboard) :
  one_piece_per_origin_b chess b from_mask to_mask = true ->
  one_piece_per_origin chess b from_mask to_mask.
Proof.
  unfold one_piece_per_origin_b, one_piece_per_origin.
  rewrite forallb_forall, Forall_forall.
  intros H m Hm. specialize (H m Hm).
  destruct (piece_types_at chess b (move_from_square m)) as [| t [| ? ?]];
    try discriminate.
  now exists t.
Qed.

End BoardProperties.

(* ================================================================== *)
(** * The scripted positions *)

Ltac by_piece_type H :=
  unfold PIECE_TYPES in H; simpl in H;
  repeat (destruct H as [<- | H]; [vm_compute; reflexivity |]);
  contradiction.

Lemma scripted_from_mask_restricts (p : Scripted.Position) :
  from_mask_restricts Scripted.chess p BB_ALL BB_ALL.
Proof.
  intros t Ht. destruct p; by_piece_type Ht.
Qed.

Lemma scripted_one_piece_per_origin (p : Scripted.Position) :
  one_piece_per_origin Scripted.chess p BB_ALL BB_ALL.
Proof.
  apply one_piece_per_origin_check. destruct p; vm_compute; reflexivity.
Qed.

(** C1 at the initial position: 120 moves. *)
Lemma C1_witness :
  exists l,
    generate_pseudo_legal_moves Scripted.chess Scripted.start BB_ALL BB_ALL = Ok l
    /\ List.length l = 120%nat.
Proof.
  destruct (C1_branching_factor Scripted.chess Scripted.start BB_ALL BB_ALL)
    as (l & Hl & _ & _ & H120).
  - exact I.
  - apply scripted_from_mask_restricts.
  - apply scripted_one_piece_per_origin.
  - exists l. split; [exact Hl |]. apply H120; reflexivity.
Defined.

(** C2 (as stated) fails on the initial position: 1. e4 announcing a knight
    ban is legal there, and after it is pushed [current_ban] is still [None];
    Black's reply Ng8-f6 is among the legal moves. *)
Lemma C2_ban_not_propagated :
  (exists legal,
      generate_legal_moves Scripted.chess Scripted.start BB_ALL BB_ALL = Ok legal
      /\ In (Bess Scripted.e2e4_n) legal)
  /\ ban_piece Scripted.e2e4_n = Some KNIGHT
  /\ current_ban (push Scripted.chess Scripted.start Scripted.e2e4_n) = None
  /\ current_ban (push Scripted.chess Scripted.start Scripted.e2e4_n)
     <> ban_piece Scripted.e2e4_n
  /\ (exists legal',
         generate_legal_moves Scripted.chess
           (push Scripted.chess Scripted.start Scripted.e2e4_n) BB_ALL BB_ALL
         = Ok legal'
         /\ In (Bess Scripted.g8f6_p) legal').
Proof.
  split; [| split; [| split; [| split]]].
  - eexists. split; [vm_compute; reflexivity |].
    vm_compute. repeat (first [left; reflexivity | right]).
  - reflexivity.
  - reflexivity.
  - discriminate.
  - eexists. split; [vm_compute; reflexivity |].
    vm_compute. repeat (first [left; reflexivity | right]).
Qed.

(** C4.  With the king banned and White in check from the rook on e8, the
    legal moves are the four king steps off the e-file, each starting on
    the square of the banned king. *)
Theorem C4_king_steps_despite_king_ban :
  current_ban Scripted.rook_check_king_banned = Some KING
  /\ is_check Scripted.chess Scripted.rook_check_king_banned = true
  /\ generate_legal_moves Scripted.chess Scripted.rook_check_king_banned BB_ALL BB_ALL
     = Ok [Plain (Scripted.mv "e1" "f2"); Plain (Scripted.mv "e1" "d2");
           Plain (Scripted.mv "e1" "f1"); Plain (Scripted.mv "e1" "d1")]
  /\ Forall (fun g => banned_square Scripted.chess Scripted.rook_check_king_banned
                        (origin g) = true)
       [Plain (Scripted.mv "e1" "f2"); Plain (Scripted.mv "e1" "d2");
        Plain (Scripted.mv "e1" "f1"); Plain (Scripted.mv "e1" "d1")].
Proof.
  repeat split; try (vm_compute; reflexivity).
  repeat constructor.
Qed.

(** C5 at the pinned-knight position with the king banned: stalemate. *)
Lemma C5_witness :
  outcome Scripted.chess Scripted.pinned_knight_king_banned = Ok STALEMATE.
Proof.
  destruct (C5_outcome_classification Scripted.chess Scripted.pinned_knight_king_banned)
    as (legal & o & _ & Ho & _ & _ & Hstalemate).
  - simpl. unfold PIECE_TYPES. simpl. auto 10.
  - rewrite Ho. f_equal. apply Hstalemate.
    + vm_compute; reflexivity.
    + reflexivity.
    + apply scripted_from_mask_restricts.
    + apply scripted_one_piece_per_origin.
    + eexists. split; [vm_compute; reflexivity |].
      intros g [<- | [<- | []]]; vm_compute; reflexivity.
Defined.

(** C8 at the initial position, for 1. e4 announcing a knight ban and 1. e4
    announcing a queen ban. *)
Lemma C8_witness :
  gives_check Scripted.chess Scripted.start Scripted.e2e4_n
  = gives_check Scripted.chess Scripted.start Scripted.e2e4_q
  /\ exists answer,
       gives_check Scripted.chess Scripted.start Scripted.e2e4_n = Ok answer.
Proof.
  apply (C8_gives_check_ignores_ban Scripted.chess Scripted.start
           Scripted.e2e4_n Scripted.e2e4_q); reflexivity.
Defined.

(* ================================================================== *)
(** * Further properties of [BessMove] *)

Lemma eqb_0000_false (s : string) :
  String.length s <> 4%nat -> String.eqb s "0000" = false.
Proof.
  intros H. apply String.eqb_neq. intros ->. apply H. reflexivity.
Qed.

Lemma list_index_from_returns {A : Type} (eqb : A -> A -> bool) (x : A) (l : list A) :
  forall pos,
    (exists q, list_index_from eqb x l pos = Ok q)
    <-> exists y, In y l /\ eqb y x = true.
Proof.
  induction l as [| y l IH]; intros pos; simpl.
  - split; [intros (q & H); discriminate | intros (y & [] & _)].
  - destruct (eqb y x) eqn:E.
    + split; [intros _; exists y; auto | intros _; eauto].
    + rewrite IH. split.
      * intros (z & Hz & Hx). exists z. auto.
      * intros (z & [<- | Hz] & Hx); [congruence | eauto].
Qed.

Lemma square_index_returns (name : string) :
  (exists q, square_index name = Ok q) <-> In name SQUARE_NAMES.
Proof.
  unfold square_index, list_index. rewrite list_index_from_returns. split.
  - intros (y & Hy & E). apply String.eqb_eq in E. now subst.
  - intros H. exists name. split; [exact H | apply String.eqb_refl].
Qed.

Lemma symbol_index_returns (c : string) :
  (exists q, symbol_index c = Ok q) <-> In (Some c) PIECE_SYMBOLS.
Proof.
  unfold symbol_index, list_index. rewrite list_index_from_returns. split.
  - intros (y & Hy & E). destruct y as [y |]; simpl in E; [| discriminate].
    apply String.eqb_eq in E. now subst.
  - intros H. exists (Some c). split; [exact H | apply String.eqb_refl].
Qed.

Lemma square_name_length (name : string) :
  In name SQUARE_NAMES -> String.length name = 2%nat.
Proof.
  assert (H : Forall (fun n => String.length n = 2%nat) SQUARE_NAMES)
    by (vm_compute; repeat constructor).
  rewrite Forall_forall in H. apply H.
Qed.

Lemma piece_symbol_length (p : string) :
  In (Some p) PIECE_SYMBOLS -> String.length p = 1%nat.
Proof.
  unfold PIECE_SYMBOLS; simpl.
  intros H; repeat (destruct H as [H | H]; [inversion H; reflexivity |]).
  contradiction.
Qed.

Lemma two_characters (s : string) :
  String.length s = 2%nat -> exists c0 c1, s = String c0 (String c1 EmptyString).
Proof.
  destruct s as [| c0 [| c1 [|]]]; simpl; try discriminate. eauto.
Qed.

Lemma one_character (s : string) :
  String.length s = 1%nat -> exists c, s = String c EmptyString.
Proof.
  destruct s as [| c [|]]; simpl; try discriminate. eauto.
Qed.

(** The [try] block of the six-character branch: both squares known means
    the read at index 6 escapes, anything else is a [ValueError]. *)
Lemma six_block (s : string) :
  len s = 6 ->
  (from_sq <- square_index (str_slice s 0 2) ;;
   to_sq <- square_index (str_slice s 2 4) ;;
   c <- str_item s 6 ;;
   ban <- symbol_index c ;;
   Ok (from_sq, to_sq, ban))
  = match square_index (str_slice s 0 2), square_index (str_slice s 2 4) with
    | Ok _, Ok _ => Raise IndexError
    | _, _ => Raise ValueError
    end.
Proof.
  intros Hlen.
  destruct (square_index (str_slice s 0 2)) as [f | e] eqn:Hf; simpl.
  - destruct (square_index (str_slice s 2 4)) as [t | e] eqn:Ht; simpl.
    + now rewrite (str_item_past_end s 6 Hlen).
    + apply square_index_raises in Ht. now subst.
  - apply square_index_raises in Hf. now subst.
Qed.

Lemma seven_block (s : string) (c5 : string) :
  len s = 7 ->
  str_item s 5 = Ok c5 ->
  (from_sq <- square_index (str_slice s 0 2) ;;
   to_sq <- square_index (str_slice s 2 4) ;;
   c <- str_item s 5 ;;
   promo <- symbol_index c ;;
   c' <- str_item s 7 ;;
   ban <- symbol_index c' ;;
   Ok (from_sq, to_sq, promo, ban))
  = match square_index (str_slice s 0 2), square_index (str_slice s 2 4),
          symbol_index c5 with
    | Ok _, Ok _, Ok _ => Raise IndexError
    | _, _, _ => Raise ValueError
    end.
Proof.
  intros Hlen H5. rewrite H5.
  destruct (square_index (str_slice s 0 2)) as [f | e] eqn:Hf; simpl.
  - destruct (square_index (str_slice s 2 4)) as [t | e] eqn:Ht; simpl.
    + destruct (symbol_index c5) as [p | e] eqn:Hp; simpl.
      * now rewrite (str_item_past_end s 7 Hlen).
      * apply symbol_index_raises in Hp. now subst.
    + apply square_index_raises in Ht. now subst.
  - apply square_index_raises in Hf. now subst.
Qed.

Lemma returns_or_raises_ValueError {A : Type} (r : result Z) (P : Prop) :
  (forall e, r = Raise e -> e = ValueError) ->
  ((exists q, r = Ok q) <-> P) ->
  (P /\ exists q, r = Ok q) \/ (~ P /\ r = Raise ValueError).
Proof.
  intros Hv Hiff. destruct r as [q | e].
  - left. split; [apply Hiff |]; eauto.
  - right. rewrite (Hv e eq_refl). split; [| reflexivity].
    intros HP. apply Hiff in HP as (q & Hq). discriminate.
Qed.

Lemma square_index_dec (name : string) :
  (In name SQUARE_NAMES /\ exists q, square_index name = Ok q)
  \/ (~ In name SQUARE_NAMES /\ square_index name = Raise ValueError).
Proof.
  apply (returns_or_raises_ValueError (A := unit)).
  - apply square_index_raises.
  - apply square_index_returns.
Qed.

Lemma symbol_index_dec (c : string) :
  (In (Some c) PIECE_SYMBOLS /\ exists q, symbol_index c = Ok q)
  \/ (~ In (Some c) PIECE_SYMBOLS /\ symbol_index c = Raise ValueError).
Proof.
  apply (returns_or_raises_ValueError (A := unit)).
  - apply symbol_index_raises.
  - apply symbol_index_returns.
Qed.

(** X1.  [from_uci] lets an [IndexError] escape exactly on the strings made
    of two square names, one arbitrary character and a colon, and on those
    made of two square names, one arbitrary character, a piece letter and a
    colon. *)
Theorem X1_from_uci_index_error_iff (s : string) :
  from_uci s = Raise IndexError
  <-> (exists a b c,
          In a SQUARE_NAMES /\ In b SQUARE_NAMES
          /\ s = (a ++ b ++ String c ":")%string)
      \/ (exists a b c p,
             In a SQUARE_NAMES /\ In b SQUARE_NAMES /\ In (Some p) PIECE_SYMBOLS
             /\ s = (a ++ b ++ String c (p ++ ":"))%string).
Proof.
  split.
  - unfold from_uci.
    destruct (String.eqb s "0000"); [discriminate |].
    destruct ((len s =? 6) && str_item_is s 5 ":") eqn:H6.
    + apply andb_true_iff in H6 as [Hlen Hcolon]. apply Z.eqb_eq in Hlen.
      rewrite (six_block s Hlen). intros H. left.
      destruct s as [| c0 [| c1 [| c2 [| c3 [| c4 [| c5 [| c6 s]]]]]]];
        try discriminate Hlen.
      2:{ unfold len in Hlen; simpl in Hlen; lia. }
      change (Ascii.eqb ":" c5 = true) in Hcolon.
      apply Ascii.eqb_eq in Hcolon. subst c5.
      change (str_slice _ 0 2) with (String c0 (String c1 EmptyString)) in H.
      change (str_slice _ 2 4) with (String c2 (String c3 EmptyString)) in H.
      destruct (square_index_dec (String c0 (String c1 EmptyString)))
        as [[Ha (qa & Ea)] | [_ Ea]]; rewrite Ea in H; [| discriminate].
      destruct (square_index_dec (String c2 (String c3 EmptyString)))
        as [[Hb (qb & Eb)] | [_ Eb]]; rewrite Eb in H; [| discriminate].
      exists (String c0 (String c1 EmptyString)),
             (String c2 (String c3 EmptyString)), c4.
      repeat split; assumption.
    + destruct ((len s =? 7) && str_item_is s 6 ":") eqn:H7; [| discriminate].
      apply andb_true_iff in H7 as [Hlen Hcolon]. apply Z.eqb_eq in Hlen.
      destruct s as [| c0 [| c1 [| c2 [| c3 [| c4 [| c5 [| c6 [| c7 s]]]]]]]];
        try discriminate Hlen.
      2:{ unfold len in Hlen; simpl in Hlen; lia. }
      change (Ascii.eqb ":" c6 = true) in Hcolon.
      apply Ascii.eqb_eq in Hcolon. subst c6.
      rewrite (seven_block _ (String c5 EmptyString) Hlen eq_refl).
      change (str_slice _ 0 2) with (String c0 (String c1 EmptyString)).
      change (str_slice _ 2 4) with (String c2 (String c3 EmptyString)).
      intros H. right.
      destruct (square_index_dec (String c0 (String c1 EmptyString)))
        as [[Ha (qa & Ea)] | [_ Ea]]; rewrite Ea in H; [| discriminate].
      destruct (square_index_dec (String c2 (String c3 EmptyString)))
        as [[Hb (qb & Eb)] | [_ Eb]]; rewrite Eb in H; [| discriminate].
      destruct (symbol_index_dec (String c5 EmptyString))
        as [[Hp _] | [_ Ep]]; [| rewrite Ep in H; discriminate].
      exists (String c0 (String c1 EmptyString)),
             (String c2 (String c3 EmptyString)), c4, (String c5 EmptyString).
      repeat split; assumption.
  - intros [(a & b & c & Ha & Hb & ->) | (a & b & c & p & Ha & Hb & Hp & ->)].
    + destruct (two_characters a (square_name_length a Ha)) as (a0 & a1 & ->).
      destruct (two_characters b (square_name_length b Hb)) as (b0 & b1 & ->).
      apply square_index_returns in Ha as (qa & Ea), Hb as (qb & Eb).
      unfold from_uci. rewrite eqb_0000_false by (simpl; lia).
      replace ((len _ =? 6) && str_item_is _ 5 ":") with true by reflexivity.
      rewrite six_block by reflexivity.
      change (str_slice _ 0 2) with (String a0 (String a1 EmptyString)).
      change (str_slice _ 2 4) with (String b0 (String b1 EmptyString)).
      rewrite Ea, Eb. reflexivity.
    + destruct (two_characters a (square_name_length a Ha)) as (a0 & a1 & ->).
      destruct (two_characters b (square_name_length b Hb)) as (b0 & b1 & ->).
      destruct (one_character p (piece_symbol_length p Hp)) as (p0 & ->).
      apply square_index_returns in Ha as (qa & Ea), Hb as (qb & Eb).
      apply symbol_index_returns in Hp as (qp & Ep).
      unfold from_uci. rewrite eqb_0000_false by (simpl; lia).
      replace ((len _ =? 6) && str_item_is _ 5 ":") with false.
      2:{ symmetry. apply andb_false_iff. left. reflexivity. }
      replace ((len _ =? 7) && str_item_is _ 6 ":") with true by reflexivity.
      rewrite (seven_block _ (String p0 EmptyString)) by reflexivity.
      change (str_slice _ 0 2) with (String a0 (String a1 EmptyString)).
      change (str_slice _ 2 4) with (String b0 (String b1 EmptyString)).
      rewrite Ea, Eb, Ep. reflexivity.
Qed.

Lemma piece_letter_not_colon (c : ascii) :
  In (Some (String c EmptyString)) PIECE_SYMBOLS -> Ascii.eqb ":" c = false.
Proof.
  unfold PIECE_SYMBOLS; simpl.
  intros H; repeat (destruct H as [H | H]; [inversion H; reflexivity |]).
  contradiction.
Qed.

Ltac colon_test_fails n tac :=
  match goal with
  | |- context [?x && str_item_is ?s n ?c] =>
      let E := fresh "E" in
      assert (E : x && str_item_is s n c = false)
        by (apply andb_false_iff; tac);
      rewrite E; clear E
  end.

(** X2.  The notation that the [uci] docstring documents is refused: two
    square names, a colon and a piece letter, with or without a promotion
    letter before the colon, make [from_uci] raise [InvalidMoveError]. *)
Theorem X2_documented_notation_refused (a b ban : string) :
  In a SQUARE_NAMES ->
  In b SQUARE_NAMES ->
  In (Some ban) PIECE_SYMBOLS ->
  from_uci (a ++ b ++ ":" ++ ban) = Raise InvalidMoveError
  /\ forall promo,
       In (Some promo) PIECE_SYMBOLS ->
       from_uci (a ++ b ++ promo ++ ":" ++ ban) = Raise InvalidMoveError.
Proof.
  intros Ha Hb Hban.
  destruct (two_characters a (square_name_length a Ha)) as (a0 & a1 & ->).
  destruct (two_characters b (square_name_length b Hb)) as (b0 & b1 & ->).
  destruct (one_character ban (piece_symbol_length ban Hban)) as (c & ->).
  pose proof (piece_letter_not_colon c Hban) as Hc.
  split.
  - unfold from_uci. rewrite eqb_0000_false by (simpl; lia).
    colon_test_fails 5%nat ltac:(right; exact Hc).
    reflexivity.
  - intros promo Hp.
    destruct (one_character promo (piece_symbol_length promo Hp)) as (p & ->).
    unfold from_uci. rewrite eqb_0000_false by (simpl; lia).
    colon_test_fails 5%nat ltac:(left; reflexivity).
    colon_test_fails 6%nat ltac:(right; exact Hc).
    reflexivity.
Qed.

(** X2 at e2, e4 and the knight letter. *)
Lemma X2_witness :
  from_uci "e2e4:n" = Raise InvalidMoveError
  /\ forall promo,
       In (Some promo) PIECE_SYMBOLS ->
       from_uci ("e2" ++ "e4" ++ promo ++ ":" ++ "n") = Raise InvalidMoveError.
Proof.
  apply (X2_documented_notation_refused "e2" "e4" "n").
  - vm_compute. repeat (first [left; reflexivity | right]).
  - vm_compute. repeat (first [left; reflexivity | right]).
  - vm_compute. repeat (first [left; reflexivity | right]).
Defined.

(** X3.  Every string other than ["0000"] whose length is neither 6 nor 7
    makes [from_uci] raise [InvalidMoveError]: the empty string, and the
    plain UCI of a chess move (four or five characters) among them. *)
Theorem X3_from_uci_other_lengths (s : string) :
  s <> "0000"%string ->
  len s <> 6 ->
  len s <> 7 ->
  from_uci s = Raise InvalidMoveError.
Proof.
  intros H0 H6 H7. unfold from_uci.
  apply String.eqb_neq in H0. rewrite H0.
  apply Z.eqb_neq in H6, H7. rewrite H6, H7. reflexivity.
Qed.

(** X3 at the empty string. *)
Lemma X3_witness : from_uci "" = Raise InvalidMoveError.
Proof.
  apply (X3_from_uci_other_lengths ""); discriminate.
Defined.

(** X4.  [str(m)] and [repr(m)] raise [AttributeError] for every move:
    both go through [uci], whatever the builtin [repr] does with a string. *)
Theorem X4_str_and_repr_raise (repr : string -> string) (m : BessMove) :
  BessMove_str m = Raise AttributeError
  /\ BessMove_repr repr m = Raise AttributeError.
Proof.
  split; reflexivity.
Qed.

(* ================================================================== *)
(** * Further properties of [BessBoard] *)

Lemma optional_piece_type_dec (o : option PieceType) :
  optional_piece_type o \/ ~ optional_piece_type o.
Proof.
  destruct o as [t |]; simpl; [| left; exact I].
  destruct (in_dec Z.eq_dec t PIECE_TYPES); auto.
Qed.

Lemma unbanned_types_None : unbanned_types None = PIECE_TYPES.
Proof. reflexivity. Qed.

(** The six piece types are the banned one and the unbanned ones. *)
Lemma piece_types_split (t : PieceType) :
  In t PIECE_TYPES -> Permutation PIECE_TYPES (t :: unbanned_types (Some t)).
Proof.
  unfold PIECE_TYPES, PAWN, KNIGHT, BISHOP, ROOK, QUEEN, KING; simpl.
  intros [<- | [<- | [<- | [<- | [<- | [<- | []]]]]]]; apply Permutation_sym.
  - exact (Permutation_middle [] [2; 3; 4; 5; 6] 1).
  - exact (Permutation_middle [1] [3; 4; 5; 6] 2).
  - exact (Permutation_middle [1; 2] [4; 5; 6] 3).
  - exact (Permutation_middle [1; 2; 3] [5; 6] 4).
  - exact (Permutation_middle [1; 2; 3; 4] [6] 5).
  - exact (Permutation_middle [1; 2; 3; 4; 5] [] 6).
Qed.

Lemma flat_map_nil {A B : Type} (f : A -> list B) (l : list A) :
  (forall a, In a l -> f a = []) -> flat_map f l = [].
Proof.
  induction l as [| a l IH]; intros H; simpl; [reflexivity |].
  rewrite (H a (or_introl eq_refl)), IH; [reflexivity |].
  intros b Hb. apply H. now right.
Qed.

Lemma with_ban_squares (piece : PieceType) (m : BessMove) :
  origin (Bess (with_ban piece m)) = origin (Bess m)
  /\ target (Bess (with_ban piece m)) = target (Bess m).
Proof. split; reflexivity. Qed.

Section BoardExtras.

Context {Board : Type} (chess : ChessBoard Board).

(** When the generator returns, the ban is none or a piece type and the
    result is the chain of lines 109-122, announced. *)
Lemma generate_pseudo_legal_moves_inv (self : BessBoard Board)
  (from_mask to_mask : Bitboard) (l : list BessMove) :
  generate_pseudo_legal_moves chess self from_mask to_mask = Ok l ->
  optional_piece_type (current_ban self)
  /\ l = flat_map announce
           (flat_map (moves_of_type chess (base self) from_mask to_mask)
                     (unbanned_types (current_ban self))).
Proof.
  intros H.
  destruct (optional_piece_type_dec (current_ban self)) as [Hv | Hv].
  - split; [exact Hv |].
    rewrite (generate_pseudo_legal_moves_chain chess _ _ _ Hv) in H.
    injection H as <-. reflexivity.
  - exfalso. destruct (current_ban self) as [t |] eqn:E; simpl in Hv.
    + rewrite (generate_pseudo_legal_moves_unbound chess self _ _ t E Hv) in H.
      discriminate.
    + apply Hv. exact I.
Qed.

(** X5.  [generate_pseudo_legal_moves] returns exactly when [current_ban]
    is [None] or one of the six piece types; with any other value it raises
    [UnboundLocalError]. *)
Theorem X5_generator_returns_iff_ban_valid (self : BessBoard Board)
  (from_mask to_mask : Bitboard) :
  ((exists l, generate_pseudo_legal_moves chess self from_mask to_mask = Ok l)
   <-> optional_piece_type (current_ban self))
  /\ (~ optional_piece_type (current_ban self) ->
      generate_pseudo_legal_moves chess self from_mask to_mask
      = Raise UnboundLocalError).
Proof.
  split; [split |].
  - intros (l & Hl). apply (generate_pseudo_legal_moves_inv _ _ _ _ Hl).
  - intros Hv. rewrite (generate_pseudo_legal_moves_chain chess _ _ _ Hv). eauto.
  - intros Hv. destruct (current_ban self) as [t |] eqn:E; simpl in Hv.
    + exact (generate_pseudo_legal_moves_unbound chess self _ _ t E Hv).
    + exfalso. apply Hv. exact I.
Qed.

(** X6.  Every move the generator yields announces one of the six piece
    types, carries no drop and is truthy, and its chess part, as [move()]
    gives it, has the squares and the promotion of a move that the base
    generator yielded for an unbanned piece type. *)
Theorem X6_generated_moves_are_announcements (self : BessBoard Board)
  (from_mask to_mask : Bitboard) (l : list BessMove) (m : BessMove) :
  generate_pseudo_legal_moves chess self from_mask to_mask = Ok l ->
  In m l ->
  (exists piece, In piece PIECE_TYPES /\ ban_piece m = Some piece)
  /\ drop m = None
  /\ BessMove_bool m = true
  /\ exists t mv,
       In t PIECE_TYPES /\ current_ban self <> Some t
       /\ In mv (moves_of_type chess (base self) from_mask to_mask t)
       /\ move m = mkMove (move_from_square mv) (move_to_square mv)
                     (move_promotion mv) None.
Proof.
  intros Hl Hm.
  destruct (generate_pseudo_legal_moves_inv _ _ _ _ Hl) as [_ ->].
  apply in_flat_map in Hm as (mv & Hmv & Hm).
  apply in_announce in Hm as (piece & Hpiece & ->).
  apply in_flat_map in Hmv as (t & Ht & Hmv).
  apply in_unbanned_types in Ht as [Ht Hne].
  repeat split.
  - exists piece; auto.
  - unfold BessMove_bool; simpl.
    rewrite (piece_type_truthy piece Hpiece). apply orb_true_r.
  - exists t, mv. repeat split; auto.
Qed.

(** X7.  A ban removes the announcements of the banned type's moves and
    nothing else: the moves generated without a ban are those generated
    under the ban of [t] together with the announced moves of type [t], so
    the ban shortens the output by six times their number. *)
Theorem X7_ban_removes_one_type (b : Board) (from_mask to_mask : Bitboard)
  (t : PieceType) :
  In t PIECE_TYPES ->
  exists free banned,
    generate_pseudo_legal_moves chess (mkBessBoard b None) from_mask to_mask = Ok free
    /\ generate_pseudo_legal_moves chess (mkBessBoard b (Some t)) from_mask to_mask
       = Ok banned
    /\ Permutation free
         (flat_map announce (moves_of_type chess b from_mask to_mask t) ++ banned)
    /\ List.length free
       = (List.length banned
          + 6 * List.length (moves_of_type chess b from_mask to_mask t))%nat.
Proof.
  intros Ht.
  rewrite (generate_pseudo_legal_moves_chain chess (mkBessBoard b None) _ _ I).
  rewrite (generate_pseudo_legal_moves_chain chess (mkBessBoard b (Some t)) _ _ Ht).
  do 2 eexists. split; [reflexivity |]. split; [reflexivity |].
  simpl base; simpl current_ban. rewrite unbanned_types_None.
  assert (Hp : Permutation
                 (flat_map announce
                    (flat_map (fun t0 => super_generate_pseudo_legal_moves chess b
                                 (Z.land from_mask (piece_mask chess b t0)) to_mask)
                       PIECE_TYPES))
                 (flat_map announce (moves_of_type chess b from_mask to_mask t)
                  ++ flat_map announce
                       (flat_map (fun t0 => super_generate_pseudo_legal_moves chess b
                                    (Z.land from_mask (piece_mask chess b t0)) to_mask)
                          (unbanned_types (Some t))))).
  { rewrite <- flat_map_app. apply Permutation_flat_map.
    rewrite (Permutation_flat_map _ (piece_types_split t Ht)). simpl.
    apply Permutation_refl. }
  split; [exact Hp |].
  rewrite (Permutation_length Hp), length_app, flat_map_announce_length. lia.
Qed.

(** X8.  Banning a piece type that has no move changes nothing, and
    banning the only piece type that has moves leaves none. *)
Theorem X8_ban_of_idle_or_sole_type (b : Board) (from_mask to_mask : Bitboard)
  (t : PieceType) :
  In t PIECE_TYPES ->
  (moves_of_type chess b from_mask to_mask t = [] ->
   generate_pseudo_legal_moves chess (mkBessBoard b (Some t)) from_mask to_mask
   = generate_pseudo_legal_moves chess (mkBessBoard b None) from_mask to_mask)
  /\ ((forall t', In t' PIECE_TYPES -> t' <> t ->
         moves_of_type chess b from_mask to_mask t' = []) ->
      generate_pseudo_legal_moves chess (mkBessBoard b (Some t)) from_mask to_mask
      = Ok []).
Proof.
  intros Ht. split.
  - intros Hidle.
    unfold moves_of_type in Hidle.
    unfold PIECE_TYPES, PAWN, KNIGHT, BISHOP, ROOK, QUEEN, KING in Ht; simpl in Ht.
    unfold generate_pseudo_legal_moves.
    destruct Ht as [<- | [<- | [<- | [<- | [<- | [<- | []]]]]]];
      cbv beta iota delta
        [piece_mask PAWN KNIGHT BISHOP ROOK QUEEN KING Z.eqb Pos.eqb] in Hidle;
      simpl; rewrite Hidle; rewrite ?app_nil_r; reflexivity.
  - intros Hsole.
    rewrite (generate_pseudo_legal_moves_chain chess (mkBessBoard b (Some t)) _ _ Ht).
    simpl base; simpl current_ban.
    assert (E : flat_map (moves_of_type chess b from_mask to_mask)
                  (unbanned_types (Some t)) = []).
    { apply flat_map_nil.
      intros t' Ht'. apply in_unbanned_types in Ht' as [Ht' Hne].
      apply Hsole; [exact Ht' | congruence]. }
    unfold moves_of_type in E. rewrite E. reflexivity.
Qed.

(** X9.  After [reset()] or [clear()] the generator returns whatever ban
    the board held before, a value that would make it raise included, and
    no piece type is left out. *)
Theorem X9_generate_after_reset_or_clear (self : BessBoard Board)
  (from_mask to_mask : Bitboard) :
  generate_pseudo_legal_moves chess (reset chess self) from_mask to_mask
  = Ok (flat_map announce
          (flat_map (moves_of_type chess (super_reset chess (base self))
                       from_mask to_mask)
                    PIECE_TYPES))
  /\ generate_pseudo_legal_moves chess (clear chess self) from_mask to_mask
     = Ok (flat_map announce
             (flat_map (moves_of_type chess (super_clear chess (base self))
                          from_mask to_mask)
                       PIECE_TYPES)).
Proof.
  split.
  - exact (generate_pseudo_legal_moves_chain chess (reset chess self) _ _ I).
  - exact (generate_pseudo_legal_moves_chain chess (clear chess self) _ _ I).
Qed.

(** X10.  Over a base generator that keeps its promises about [from_mask],
    the generator yields exactly the announcements of the chess moves that
    start on a square not held by the banned piece type; in particular no
    yielded move starts on a square of the banned type. *)
Theorem X10_generated_iff_unbanned_origin (self : BessBoard Board)
  (from_mask to_mask : Bitboard) (l : list BessMove) (m : BessMove) :
  from_mask_restricts chess (base self) from_mask to_mask ->
  one_piece_per_origin chess (base self) from_mask to_mask ->
  generate_pseudo_legal_moves chess self from_mask to_mask = Ok l ->
  (In m l
   <-> exists mv piece,
         In mv (super_generate_pseudo_legal_moves chess (base self) from_mask to_mask)
         /\ banned_square chess self (move_from_square mv) = false
         /\ In piece PIECE_TYPES
         /\ m = mkBessMove (move_from_square mv) (move_to_square mv)
                  (Some piece) (move_promotion mv) None)
  /\ (In m l -> banned_square chess self (from_square m) = false).
Proof.
  intros Hmask Hone Hl.
  destruct (generate_pseudo_legal_moves_inv _ _ _ _ Hl) as [Hv ->].
  pose proof (chain_unbanned chess self from_mask to_mask Hv Hmask Hone) as Hp.
  assert (Hiff : forall mv,
    In mv (flat_map (moves_of_type chess (base self) from_mask to_mask)
             (unbanned_types (current_ban self)))
    <-> In mv (super_generate_pseudo_legal_moves chess (base self) from_mask to_mask)
        /\ banned_square chess self (move_from_square mv) = false).
  { intros mv. unfold unbanned_chess_moves in Hp. split.
    - intros H. apply (Permutation_in _ Hp) in H.
      apply filter_In in H as [H1 H2]. apply negb_true_iff in H2. auto.
    - intros [H1 H2]. apply (Permutation_in _ (Permutation_sym Hp)).
      apply filter_In. split; [exact H1 | now apply negb_true_iff]. }
  assert (Hchar : In m (flat_map announce
                          (flat_map (moves_of_type chess (base self) from_mask to_mask)
                             (unbanned_types (current_ban self))))
    <-> exists mv piece,
         In mv (super_generate_pseudo_legal_moves chess (base self) from_mask to_mask)
         /\ banned_square chess self (move_from_square mv) = false
         /\ In piece PIECE_TYPES
         /\ m = mkBessMove (move_from_square mv) (move_to_square mv)
                  (Some piece) (move_promotion mv) None).
  { rewrite in_flat_map. split.
    - intros (mv & Hmv & Hm). apply Hiff in Hmv as [H1 H2].
      apply in_announce in Hm as (piece & Hpiece & ->).
      exists mv, piece. auto.
    - intros (mv & piece & H1 & H2 & Hpiece & ->).
      exists mv. split; [apply Hiff; auto |].
      apply in_announce. exists piece. auto. }
  split; [exact Hchar |].
  intros Hm. apply Hchar in Hm as (mv & piece & _ & H2 & _ & ->). exact H2.
Qed.

End BoardExtras.

Section LegalExtras.

Context {Board : Type} (chess : ChessBoard Board).

(** The yielded moves come in sixes: with a move, the generator yields its
    chess part under every announcement. *)
Lemma generated_under_every_ban (self : BessBoard Board)
  (from_mask to_mask : Bitboard) (l : list BessMove) (m : BessMove)
  (piece : PieceType) :
  generate_pseudo_legal_moves chess self from_mask to_mask = Ok l ->
  In piece PIECE_TYPES ->
  In m l -> In (with_ban piece m) l.
Proof.
  intros Hl Hpiece Hm.
  destruct (generate_pseudo_legal_moves_inv chess _ _ _ _ Hl) as [_ ->].
  apply in_flat_map in Hm as (mv & Hmv & Hm).
  apply in_announce in Hm as (piece0 & _ & ->).
  apply in_flat_map. exists mv. split; [exact Hmv |].
  apply in_announce. exists piece. split; [exact Hpiece | reflexivity].
Qed.

Lemma bess_pseudo_inv (self : BessBoard Board) (from_mask to_mask : Bitboard)
  (gs : list GenMove) :
  bess_pseudo chess self from_mask to_mask = Ok gs ->
  exists l, generate_pseudo_legal_moves chess self from_mask to_mask = Ok l
            /\ gs = map Bess l.
Proof.
  unfold bess_pseudo.
  destruct (generate_pseudo_legal_moves chess self from_mask to_mask) as [l |];
    simpl; [| discriminate].
  intros H. injection H as <-. eauto.
Qed.

Lemma in_map_Bess (m : BessMove) (l : list BessMove) :
  In (Bess m) (map Bess l) <-> In m l.
Proof.
  rewrite in_map_iff. split.
  - intros (x & E & Hx). now injection E as <-.
  - intros H. eauto.
Qed.

Lemma not_in_map_Plain (m : BessMove) (l : list Move) :
  ~ In (Bess m) (map Plain l).
Proof.
  intros H. apply in_map_iff in H as (x & E & _). discriminate.
Qed.

(** X11.  Out of check the ban holds for the legal moves: for a ban that
    is none or a piece type, over a base generator that keeps its promises
    about [from_mask], [generate_legal_moves] returns, every legal move is
    an announced move, and none starts on a square of the banned type. *)
Theorem X11_legal_moves_respect_ban_out_of_check (self : BessBoard Board)
  (from_mask to_mask : Bitboard) :
  optional_piece_type (current_ban self) ->
  from_mask_restricts chess (base self) from_mask to_mask ->
  one_piece_per_origin chess (base self) from_mask to_mask ->
  is_check chess self = false ->
  exists legal,
    generate_legal_moves chess self from_mask to_mask = Ok legal
    /\ forall g, In g legal ->
         (exists m piece, g = Bess m /\ In piece PIECE_TYPES
                          /\ ban_piece m = Some piece)
         /\ banned_square chess self (origin g) = false.
Proof.
  intros Hv Hmask Hone Hcheck.
  apply nonzero_false in Hcheck.
  destruct (generate_legal_moves_ok chess self from_mask to_mask Hv) as (legal & Hl).
  exists legal. split; [exact Hl |].
  intros g Hg. split.
  - destruct (legal_out_of_check_inv chess self from_mask to_mask legal g
                Hv Hmask Hone Hcheck Hl Hg) as (mv & piece & -> & Hpiece & _ & _).
    eexists _, piece. split; [reflexivity | split; [exact Hpiece | reflexivity]].
  - exact (ban_exclusion_out_of_check chess self from_mask to_mask legal g
             Hv Hmask Hone Hcheck Hl Hg).
Qed.

(** X12.  Neither generator depends on the announcement: with a move,
    [generate_pseudo_legal_moves] yields the same chess move under each of
    the six announcements, and so does [generate_legal_moves], in check or
    out of it. *)
Theorem X12_moves_come_under_every_ban (self : BessBoard Board)
  (from_mask to_mask : Bitboard) (m : BessMove) (piece : PieceType) :
  In piece PIECE_TYPES ->
  (forall l,
      generate_pseudo_legal_moves chess self from_mask to_mask = Ok l ->
      In m l -> In (with_ban piece m) l)
  /\ (forall legal,
         generate_legal_moves chess self from_mask to_mask = Ok legal ->
         In (Bess m) legal -> In (Bess (with_ban piece m)) legal).
Proof.
  intros Hpiece. split.
  - intros l Hl Hm. exact (generated_under_every_ban self _ _ l m piece Hl Hpiece Hm).
  - intros legal. unfold generate_legal_moves, generate_legal_moves_with.
    destruct (nonzero (Z.land _ _)).
    + destruct (nonzero (attackers_mask _ _ _ _)).
      * match goal with
        | |- context [generate_evasions_with chess _ ?b ?k ?c ?fm ?tm] =>
            destruct (generate_evasions_with_shape chess b k c fm tm)
              as (king_moves & ep_moves & fm' & tm' & Hshape)
        end.
        rewrite Hshape.
        destruct (BB_SQUARES _ =? _).
        -- destruct (bess_pseudo chess self fm' tm') as [blocks |] eqn:Hb;
             [| discriminate].
           apply bess_pseudo_inv in Hb as (l & Hl & ->).
           simpl. intros H. injection H as <-. intros Hin.
           apply filter_In in Hin as [Hin Hsafe].
           apply filter_In. split; [| exact Hsafe].
           rewrite !in_app_iff in *.
           destruct Hin as [Hin | [Hin | Hin]];
             try (exfalso; exact (not_in_map_Plain _ _ Hin)).
           right; left. apply in_map_Bess. apply in_map_Bess in Hin.
           exact (generated_under_every_ban self _ _ l m piece Hl Hpiece Hin).
        -- simpl. intros H. injection H as <-. intros Hin.
           apply filter_In in Hin as [Hin _].
           exfalso. exact (not_in_map_Plain _ _ Hin).
      * destruct (bess_pseudo chess self from_mask to_mask) as [gs |] eqn:Hb;
          [| discriminate].
        apply bess_pseudo_inv in Hb as (l & Hl & ->).
        simpl. intros H. injection H as <-. intros Hin.
        apply filter_In in Hin as [Hin Hsafe].
        apply filter_In. split; [| exact Hsafe].
        apply in_map_Bess. apply in_map_Bess in Hin.
        exact (generated_under_every_ban self _ _ l m piece Hl Hpiece Hin).
    + intros Hb. apply bess_pseudo_inv in Hb as (l & Hl & ->). intros Hin.
      apply in_map_Bess. apply in_map_Bess in Hin.
      exact (generated_under_every_ban self _ _ l m piece Hl Hpiece Hin).
Qed.

(** X13.  In check the plain chess moves among the legal moves, the king
    steps first of all, are the same whatever [current_ban] holds: two
    boards in one position yield the same ones. *)
Theorem X13_evasions_ignore_ban (self self' : BessBoard Board)
  (from_mask to_mask : Bitboard) (legal legal' : list GenMove) :
  base self = base self' ->
  is_check chess self = true ->
  generate_legal_moves chess self from_mask to_mask = Ok legal ->
  generate_legal_moves chess self' from_mask to_mask = Ok legal' ->
  forall m, In (Plain m) legal <-> In (Plain m) legal'.
Proof.
  intros Hbase Hcheck Hl Hl' m.
  assert (Hcheck' : is_check chess self' = true)
    by (unfold is_check in *; now rewrite <- Hbase).
  split.
  - exact (plain_evasions_ignore_ban chess self self' _ _ legal legal' m
             Hbase Hcheck Hl Hl').
  - exact (plain_evasions_ignore_ban chess self' self _ _ legal' legal m
             (eq_sym Hbase) Hcheck' Hl' Hl).
Qed.


End LegalExtras.

Section GameExtras.

Context {Board : Type} (chess : ChessBoard Board).

(** X15.  In a game that starts with [reset()] and goes on with [push],
    no ban ever comes into force: after any sequence of pushed moves,
    whatever they announce, [current_ban] is [None] and the generator
    leaves no piece type out. *)
Theorem X15_no_ban_in_a_pushed_game (self : BessBoard Board)
  (moves : list BessMove) (from_mask to_mask : Bitboard) :
  current_ban (fold_left (push chess) moves (reset chess self)) = None
  /\ generate_pseudo_legal_moves chess
       (fold_left (push chess) moves (reset chess self)) from_mask to_mask
     = Ok (flat_map announce
             (flat_map
                (moves_of_type chess
                   (base (fold_left (push chess) moves (reset chess self)))
                   from_mask to_mask)
                PIECE_TYPES)).
Proof.
  assert (Hban : forall (ms : list BessMove) (b : BessBoard Board),
             current_ban b = None ->
             current_ban (fold_left (push chess) ms b) = None).
  { induction ms as [| m ms IH]; intros b Hb; simpl; [exact Hb |].
    apply IH. exact Hb. }
  pose proof (Hban moves (reset chess self) eq_refl) as Hnone.
  split; [exact Hnone |].
  rewrite generate_pseudo_legal_moves_chain by (rewrite Hnone; exact I).
  rewrite Hnone. reflexivity.
Qed.

Lemma NoDup_announce (mv : Move) : NoDup (announce mv).
Proof.
  unfold announce, PIECE_TYPES, PAWN, KNIGHT, BISHOP, ROOK, QUEEN, KING; simpl.
  repeat constructor; simpl; intuition discriminate.
Qed.

Lemma NoDup_flat_map_announce (l : list Move) :
  NoDup l ->
  (forall mv, In mv l -> move_drop mv = None) ->
  NoDup (flat_map announce l).
Proof.
  induction l as [| a l IH]; intros Hnd Hdrop; [constructor |].
  inversion Hnd as [| ? ? Hnotin Hnd']; subst.
  change (NoDup (announce a ++ flat_map announce l)).
  apply NoDup_app.
  - apply NoDup_announce.
  - apply IH; [exact Hnd' |]. intros mv Hmv. apply Hdrop. now right.
  - intros x Hx Hx'.
    apply in_announce in Hx as (piece & _ & ->).
    apply in_flat_map in Hx' as (mv & Hmv & Hx').
    apply in_announce in Hx' as (piece' & _ & E).
    injection E as E1 E2 _ E3.
    apply Hnotin.
    assert (Ha : move_drop a = None) by (apply Hdrop; now left).
    assert (Hm : move_drop mv = None) by (apply Hdrop; now right).
    destruct a, mv; simpl in *; subst. exact Hmv.
Qed.

(** X16.  The generator yields no move twice when the base generator,
    keeping its promises about [from_mask], yields no chess move twice and
    none with a drop. *)
Theorem X16_generated_moves_distinct (self : BessBoard Board)
  (from_mask to_mask : Bitboard) (l : list BessMove) :
  from_mask_restricts chess (base self) from_mask to_mask ->
  one_piece_per_origin chess (base self) from_mask to_mask ->
  NoDup (super_generate_pseudo_legal_moves chess (base self) from_mask to_mask) ->
  (forall mv,
      In mv (super_generate_pseudo_legal_moves chess (base self) from_mask to_mask) ->
      move_drop mv = None) ->
  generate_pseudo_legal_moves chess self from_mask to_mask = Ok l ->
  NoDup l.
Proof.
  intros Hmask Hone Hnd Hdrop Hl.
  destruct (generate_pseudo_legal_moves_inv chess _ _ _ _ Hl) as [Hv ->].
  pose proof (chain_unbanned chess self from_mask to_mask Hv Hmask Hone) as Hp.
  apply (Permutation_NoDup
           (Permutation_sym (Permutation_flat_map announce Hp))).
  apply NoDup_flat_map_announce.
  - unfold unbanned_chess_moves. apply NoDup_filter. exact Hnd.
  - intros mv Hmv. unfold unbanned_chess_moves in Hmv.
    apply filter_In in Hmv as [Hmv _]. apply Hdrop. exact Hmv.
Qed.

End GameExtras.

(* ================================================================== *)
(** * The further properties on the scripted positions *)

Ltac find_in_list := vm_compute; repeat (first [left; reflexivity | right]).

(** X6 at the initial position, for 1. e4 announcing a knight ban. *)
Lemma X6_witness :
  (exists piece, In piece PIECE_TYPES /\ ban_piece Scripted.e2e4_n = Some piece)
  /\ drop Scripted.e2e4_n = None
  /\ BessMove_bool Scripted.e2e4_n = true
  /\ exists t mv,
       In t PIECE_TYPES /\ current_ban Scripted.start <> Some t
       /\ In mv (moves_of_type Scripted.chess (base Scripted.start) BB_ALL BB_ALL t)
       /\ move Scripted.e2e4_n
          = mkMove (move_from_square mv) (move_to_square mv) (move_promotion mv) None.
Proof.
  eapply (X6_generated_moves_are_announcements Scripted.chess Scripted.start
            BB_ALL BB_ALL _ Scripted.e2e4_n).
  - vm_compute. reflexivity.
  - find_in_list.
Defined.

(** X7 at the initial position with the knights banned: 120 moves without
    the ban, 96 with it, 4 knight moves. *)
Lemma X7_witness :
  exists free banned,
    generate_pseudo_legal_moves Scripted.chess (mkBessBoard Scripted.Start None)
      BB_ALL BB_ALL = Ok free
    /\ generate_pseudo_legal_moves Scripted.chess
         (mkBessBoard Scripted.Start (Some KNIGHT)) BB_ALL BB_ALL = Ok banned
    /\ Permutation free
         (flat_map announce
            (moves_of_type Scripted.chess Scripted.Start BB_ALL BB_ALL KNIGHT)
          ++ banned)
    /\ List.length free
       = (List.length banned
          + 6 * List.length
                  (moves_of_type Scripted.chess Scripted.Start BB_ALL BB_ALL KNIGHT))%nat.
Proof.
  apply (X7_ban_removes_one_type Scripted.chess Scripted.Start BB_ALL BB_ALL KNIGHT).
  find_in_list.
Defined.

(** X8 at the initial position with the queens banned: the queen has no
    move, so the ban changes nothing. *)
Lemma X8_witness :
  generate_pseudo_legal_moves Scripted.chess start_queens_banned BB_ALL BB_ALL
  = generate_pseudo_legal_moves Scripted.chess Scripted.start BB_ALL BB_ALL.
Proof.
  destruct (X8_ban_of_idle_or_sole_type Scripted.chess Scripted.Start
              BB_ALL BB_ALL QUEEN) as [Hidle _].
  - find_in_list.
  - apply Hidle. vm_compute. reflexivity.
Defined.

(** X10 at the initial position with the knights banned, for 1. e4. *)
Lemma X10_witness :
  banned_square Scripted.chess start_knights_banned (from_square Scripted.e2e4_n)
  = false.
Proof.
  eapply (X10_generated_iff_unbanned_origin Scripted.chess start_knights_banned
            BB_ALL BB_ALL _ Scripted.e2e4_n).
  - apply scripted_from_mask_restricts.
  - apply scripted_one_piece_per_origin.
  - vm_compute. reflexivity.
  - find_in_list.
Defined.

(** X11 at the initial position with the knights banned. *)
Lemma X11_witness :
  exists legal,
    generate_legal_moves Scripted.chess start_knights_banned BB_ALL BB_ALL = Ok legal
    /\ forall g, In g legal ->
         (exists m piece, g = Bess m /\ In piece PIECE_TYPES
                          /\ ban_piece m = Some piece)
         /\ banned_square Scripted.chess start_knights_banned (origin g) = false.
Proof.
  apply (X11_legal_moves_respect_ban_out_of_check Scripted.chess
           start_knights_banned BB_ALL BB_ALL).
  - find_in_list.
  - apply scripted_from_mask_restricts.
  - apply scripted_one_piece_per_origin.
  - vm_compute. reflexivity.
Defined.

(** X12 at the initial position: 1. e4 announcing a knight ban comes with
    1. e4 announcing a queen ban. *)
Lemma X12_witness :
  (forall l,
      generate_pseudo_legal_moves Scripted.chess Scripted.start BB_ALL BB_ALL = Ok l ->
      In Scripted.e2e4_n l -> In (with_ban QUEEN Scripted.e2e4_n) l)
  /\ (forall legal,
         generate_legal_moves Scripted.chess Scripted.start BB_ALL BB_ALL = Ok legal ->
         In (Bess Scripted.e2e4_n) legal ->
         In (Bess (with_ban QUEEN Scripted.e2e4_n)) legal).
Proof.
  apply (X12_moves_come_under_every_ban Scripted.chess Scripted.start
           BB_ALL BB_ALL Scripted.e2e4_n QUEEN).
  find_in_list.
Defined.

(** X13 at the rook check: the king step to f2 is legal with the king
    banned as it is without a ban. *)
Lemma X13_witness :
  In (Plain (Scripted.mv "e1" "f2"))
     [Plain (Scripted.mv "e1" "f2"); Plain (Scripted.mv "e1" "d2");
      Plain (Scripted.mv "e1" "f1"); Plain (Scripted.mv "e1" "d1")]
  <-> In (Plain (Scripted.mv "e1" "f2"))
         [Plain (Scripted.mv "e1" "f2"); Plain (Scripted.mv "e1" "d2");
          Plain (Scripted.mv "e1" "f1"); Plain (Scripted.mv "e1" "d1")].
Proof.
  apply (X13_evasions_ignore_ban Scripted.chess
           Scripted.rook_check_king_banned rook_check_no_ban BB_ALL BB_ALL).
  - reflexivity.
  - vm_compute. reflexivity.
  - vm_compute. reflexivity.
  - vm_compute. reflexivity.
Defined.


Lemma scripted_pseudo_distinct (p : Scripted.Position) :
  NoDup (super_generate_pseudo_legal_moves Scripted.chess p BB_ALL BB_ALL).
Proof.
  destruct p; vm_compute;
    repeat (constructor;
            [intros H; repeat (destruct H as [H | H]; [discriminate H |]);
             exact H |]);
    constructor.
Qed.

Lemma scripted_pseudo_no_drop (p : Scripted.Position) (mv : Move) :
  In mv (super_generate_pseudo_legal_moves Scripted.chess p BB_ALL BB_ALL) ->
  move_drop mv = None.
Proof.
  intros H. destruct p; vm_compute in H;
    repeat (destruct H as [<- | H]; [reflexivity |]); contradiction.
Qed.

(** X16 at the initial position with the knights banned. *)
Lemma X16_witness :
  exists l,
    generate_pseudo_legal_moves Scripted.chess start_knights_banned BB_ALL BB_ALL = Ok l
    /\ NoDup l.
Proof.
  eexists. split; [vm_compute; reflexivity |].
  eapply (X16_generated_moves_distinct Scripted.chess start_knights_banned
            BB_ALL BB_ALL).
  - apply scripted_from_mask_restricts.
  - apply scripted_one_piece_per_origin.
  - apply scripted_pseudo_distinct.
  - apply scripted_pseudo_no_drop.
  - vm_compute. reflexivity.
Defined.
